(** * HRMS Lite: attendance time accounting, report generation and the
      auto-refresh controller of the Reports view

    The development embeds the client-side code of the repository:
    - [formatDuration]              (ProfessionalAttendance component),
    - [calculateAttendanceRate]     (apiUtils, api.js),
    - [getAttendanceStats]          (AttendanceManagement component),
    - the Reports component: [generateReport], [exportReport],
      [startAutoRefresh], [stopAutoRefresh], [performAutoRefresh],
      [toggleAutoRefresh] and its refresh-lifecycle effect,
    - [RealTimeUpdates]: [startPolling], [stopPolling], [stopAllPolling]
      (api.js),
    - [addNotification] and [removeNotification]  (App),
    - [getStatusBadge] and the three counters     (ProfessionalAttendance),
    - [formatWorkingHours], [formatDisplayTime], [validateEmployeeId]
      (apiUtils, api.js),
    - the department options of [loadEmployees]   (Reports component).

    JavaScript numbers are IEEE 754 doubles.  Where the code divides and
    rounds ([calculateAttendanceRate]) they are modelled by Rocq's binary64
    primitive floats; counters, timer handles and whole minute counts are
    integers far below 2^53 and are modelled by [Z].

    The Reports component is a React function component.  Its [useState]
    cells are kept by React; every render reads them into constants, and
    the functions defined during a render ([stopAutoRefresh], the interval
    callbacks, the effect's cleanup, ...) close over those constants.  The
    model keeps both: the cells, and the render whose values a closure
    sees.  An [async] function runs to its [await] within one turn of the
    event loop and resumes in the turn in which the awaited call
    settles. *)

From Stdlib Require Import ZArith String Ascii List Bool Lia.
From Stdlib Require Import Floats Uint63.
From Stdlib Require Import Numbers.DecimalString.
Import ListNotations.

Open Scope string_scope.
Open Scope Z_scope.

(** ** The JavaScript operations the components rely on *)

Module JS.

(** [String(n)] for an integral number. *)
Definition toString (n : Z) : string := NilZero.string_of_int (Z.to_int n).

(** [!s] is true exactly for the empty string. *)
Definition truthy (s : string) : bool :=
  match s with EmptyString => false | String _ _ => true end.

(** [a || b] on strings. *)
Definition or_else (a b : string) : string := if truthy a then a else b.

(** An integral double. *)
Definition num (z : Z) : float :=
  if z <? 0 then PrimFloat.opp (PrimFloat.of_uint63 (Uint63.of_Z (- z)))
  else PrimFloat.of_uint63 (Uint63.of_Z z).

(** [Math.round]: the integer closest to the argument, a tie going to
    the larger one; zeros, NaN and the infinities are returned unchanged.
    A finite double is [m * 2^e]: with [0 <= e] it is an integer already,
    otherwise [floor(x + 1/2)] is taken exactly, over the integers (a
    result of -0 is given as 0). *)
Definition Math_round (x : float) : float :=
  match Prim2SF x with
  | S754_finite s m e =>
      let n := if s then Z.neg m else Z.pos m in
      if 0 <=? e then x
      else num ((2 * n + 2 ^ (- e)) / 2 ^ (- e + 1))
  | _ => x
  end.

(** [s.padStart(width, '0')]. *)
Fixpoint zeros (k : nat) : string :=
  match k with O => "" | S k' => String "0" (zeros k') end.

Definition padStart (width : nat) (s : string) : string :=
  zeros (width - String.length s) ++ s.

(** [s.split(sep)[0]]: the part of [s] before the first [sep]. *)
Fixpoint split_head (sep : ascii) (s : string) : string :=
  match s with
  | EmptyString => EmptyString
  | String c rest =>
      if Ascii.eqb c sep then EmptyString else String c (split_head sep rest)
  end.

(** A [Date], by its UTC fields. *)
Record Date := mkDate {
  year : Z; month : Z; day : Z;
  hours : Z; minutes : Z; seconds : Z; milliseconds : Z
}.

Definition pad (width : nat) (n : Z) : string := padStart width (toString n).

(** [Date.prototype.toISOString]: [YYYY-MM-DDTHH:mm:ss.sssZ], with the
    expanded six-digit signed year outside 0..9999. *)
Definition toISOString (d : Date) : string :=
  (if (0 <=? year d) && (year d <=? 9999) then pad 4 (year d)
   else (if year d <? 0 then "-" else "+") ++ pad 6 (Z.abs (year d)))
  ++ "-" ++ pad 2 (month d) ++ "-" ++ pad 2 (day d)
  ++ "T" ++ pad 2 (hours d) ++ ":" ++ pad 2 (minutes d)
  ++ ":" ++ pad 2 (seconds d) ++ "." ++ pad 3 (milliseconds d) ++ "Z".

(** A calendar date and time of day within the four-digit years. *)
Definition valid (d : Date) : Prop :=
  0 <= year d <= 9999 /\ 1 <= month d <= 12 /\ 1 <= day d <= 31 /\
  0 <= hours d <= 23 /\ 0 <= minutes d <= 59 /\ 0 <= seconds d <= 59 /\
  0 <= milliseconds d <= 999.

(** [Number.isSafeInteger]: the whole numbers a double holds exactly,
    together with their neighbours. *)
Definition safe_integer (z : Z) : bool := Z.abs z <? 2 ^ 53.

End JS.

(** ** ProfessionalAttendance: [formatDuration] *)

(** The [minutes] argument: absent ([undefined] or [null]) or a whole
    number of minutes.  The number is a double; the model covers the safe
    integers, below 2^53 in absolute value. *)
Inductive MinutesArg :=
| Absent
| Minutes (m : Z).

(** How a call ends: with a value, or by throwing. *)
Inductive Completion (A : Type) :=
| Returns (a : A)
| Throws (message : string).
Arguments Returns {A} a.
Arguments Throws {A} message.

(** [[
  const formatDuration = (minutes) => {
    if (!minutes || minutes <= 0) return '0h 0m';
    const hours = Math.floor(minutes / 60);
    const mins = minutes % 60;
    return `${hours}h ${mins}m`;
  };
]]
    [!minutes] holds for an absent argument and for 0.  Past the guard
    [minutes] is positive.  The division is one of doubles: for a whole
    [minutes] below 2^53 the quotient is below 2^48, where doubles are at
    most 2^-5 apart, and the exact quotient lies at least 1/60, more than
    half that distance, below the next whole number; so the rounded
    quotient does not reach it and [Math.floor] gives the integer
    quotient.  [%] is exact on doubles, and the template prints a whole
    number below 10^21 by its digits.  From 2^53 on the doubles are
    further apart than 1 and the digits printed are not those of the
    quotient: such an argument is outside the model, [None].  The body has
    no [throw] and calls nothing that throws. *)
Definition formatDuration (minutes : MinutesArg)
  : option (Completion string) :=
  match minutes with
  | Absent => Some (Returns "0h 0m")
  | Minutes m =>
      if negb (JS.safe_integer m) then None
      else if (m =? 0) || (m <=? 0) then Some (Returns "0h 0m")
      else
        let hours := m / 60 in
        let mins := Z.rem m 60 in
        Some (Returns (JS.toString hours ++ "h " ++ JS.toString mins ++ "m"))
  end.

(** ** apiUtils: [calculateAttendanceRate] *)

(** [[
  calculateAttendanceRate: (present, total) => {
    if (total === 0) return 0;
    return Math.round((present / total) * 100);
  },
]] *)
Definition calculateAttendanceRate (present total : float) : float :=
  if PrimFloat.eqb total 0 then 0%float
  else JS.Math_round (PrimFloat.mul (PrimFloat.div present total) 100).

(** ** AttendanceManagement: [getAttendanceStats] and the rate card *)

Record AttendanceRow := mkRow {
  row_employee_id : string;
  row_date : string;
  row_status : string
}.

(** [attendance.filter(record => record.date === today)] *)
Definition getTodayAttendance (today : string) (attendance : list AttendanceRow)
  : list AttendanceRow :=
  filter (fun record => String.eqb (row_date record) today) attendance.

Record AttendanceStats := mkStats {
  present : Z; absent : Z; late : Z; total : Z
}.

Definition count_status (s : string) (rows : list AttendanceRow) : Z :=
  Z.of_nat (List.length (filter (fun r => String.eqb (row_status r) s) rows)).

(** [[
  const getAttendanceStats = () => {
    const todayRecords = getTodayAttendance();
    const present = todayRecords.filter(r => r.status === 'Present').length;
    const absent = todayRecords.filter(r => r.status === 'Absent').length;
    const late = todayRecords.filter(r => r.status === 'Late').length;
    return { present, absent, late, total: present + absent + late };
  };
]] *)
Definition getAttendanceStats (today : string) (attendance : list AttendanceRow)
  : AttendanceStats :=
  let todayRecords := getTodayAttendance today attendance in
  let present := count_status "Present" todayRecords in
  let absent := count_status "Absent" todayRecords in
  let late := count_status "Late" todayRecords in
  mkStats present absent late (present + absent + late).

(** The "Attendance Rate" card:
    [[
      {stats.total > 0 && ( ...
         {Math.round(((stats.present + stats.late) / stats.total) * 100)}% ... )}
    ]]
    [None] when the card is not rendered. *)
Definition attendanceRateCard (stats : AttendanceStats) : option float :=
  if 0 <? total stats then
    Some (JS.Math_round
            (PrimFloat.mul
               (PrimFloat.div (JS.num (present stats + late stats))
                              (JS.num (total stats)))
               100))
  else None.

(** The rate as the specification words it:
    [round(100 * (present + late) / total)], and 0 when [total] is 0.  The
    argument [n] stands for [present + late]; the quotient is exact and a
    tie goes up. *)
Definition attendance_rate_spec (n total : Z) : Z :=
  if total =? 0 then 0 else (200 * n + total) / (2 * total).

(** ** Auto-checkout *)

(** An attendance record.  Instants are minutes on the canonical clock. *)
Record AttendanceRecord := mkRecord {
  employee_id : string;
  date : string;
  status : string;
  check_in_time : option Z;
  check_out_time : option Z;
  is_auto_checkout : bool;
  notes : string
}.

(** Modelled from the spec: [applyAutoCheckoutIfDue] belongs to the
    attendance service (backend/main.py), which is not among the sources;
    the client only displays its results ([is_auto_checkout],
    [time_until_auto_checkout]).  The specification: given a record with
    an open check-in, return it with the check-out forced at
    [check_in_time + ceiling] and [is_auto_checkout] set when
    [now - check_in_time >= ceiling], else return the record unchanged;
    once [check_out_time] is set further attempts are no-ops; a record
    with a missing timestamp is not due and is left untouched.  The
    ceiling is a configuration value. *)
Definition applyAutoCheckoutIfDue (ceiling : Z) (record : AttendanceRecord)
    (now : Z) : AttendanceRecord :=
  match check_out_time record with
  | Some _ => record
  | None =>
      match check_in_time record with
      | None => record
      | Some t =>
          if ceiling <=? now - t then
            {| employee_id := employee_id record;
               date := date record;
               status := status record;
               check_in_time := check_in_time record;
               check_out_time := Some (t + ceiling);
               is_auto_checkout := true;
               notes := notes record |}
          else record
      end
  end.

(** Modelled from the spec: [working_minutes] is derived from the instant
    pair, never stored. *)
Definition working_minutes (record : AttendanceRecord) : Z :=
  match check_in_time record, check_out_time record with
  | Some a, Some b => b - a
  | _, _ => 0
  end.

(** ** The Reports component *)

(** A parsed JSON document: what the report service answers with and what
    the [reportData] cell holds ([null] before the first report). *)
#[local] Unset Elimination Schemes.
Inductive json :=
| JNull
| JBool (b : bool)
| JNumber (x : float)
| JString (s : string)
| JArray (items : list json)
| JObject (fields : list (string * json)).
#[local] Set Elimination Schemes.

(** [!!value] *)
Definition json_truthy (value : json) : bool :=
  match value with
  | JNull => false
  | JBool b => b
  | JNumber x => negb (PrimFloat.eqb x 0 || PrimFloat.is_nan x)
  | JString s => JS.truthy s
  | JArray _ | JObject _ => true
  end.

(** [Object.is] on a value and the address it lives at: arrays and objects
    are compared by reference, the rest by value. *)
Definition Object_is (a b : nat * json) : bool :=
  match snd a, snd b with
  | JNull, JNull => true
  | JBool x, JBool y => Bool.eqb x y
  | JNumber x, JNumber y => PrimFloat.Leibniz.eqb x y
  | JString x, JString y => String.eqb x y
  | JArray _, JArray _ | JObject _, JObject _ => Nat.eqb (fst a) (fst b)
  | _, _ => false
  end.

Definition TimerId := positive.

Record RefreshSettings := mkSettings {
  interval : Z;          (* seconds *)
  enabled : bool;
  pauseOnError : bool;
  maxRetries : Z
}.

Record Filters := mkFilters {
  dateFrom : string;
  dateTo : string;
  department : string;
  employeeId : string
}.

(** The [useState] cells of the component.  [reportDataAddr] is the
    address of the object held by [reportData].  The cells [employees],
    [departments] (options of the two selects, filled by [loadEmployees])
    and [autoRefresh] (never read) are left out. *)
Record State := mkState {
  reportType : string;
  filters : Filters;
  reportData : json;
  reportDataAddr : nat;
  loading : bool;
  error : string;
  lastGenerated : option JS.Date;
  refreshInterval : option TimerId;
  refreshCountdown : Z;
  countdownInterval : option TimerId;
  isRefreshing : bool;
  refreshSettings : RefreshSettings;
  retryCount : Z
}.

(** The two interval callbacks created by [startAutoRefresh]. *)
Inductive Callback :=
| CountdownTick
| RefreshTick.

(** An interval registered with the host.  [captured] is the render whose
    variables the callback closes over. *)
Record Timer := mkTimer {
  handle : TimerId;
  callback : Callback;
  captured : State;
  delay : Z              (* milliseconds *)
}.

(** The three report calls of api.js. *)
Inductive Request :=
| generateAttendanceSummary (dateFrom dateTo department : string)
| generateEmployeePerformance (employeeId dateFrom dateTo : string)
| generateDepartmentReport (department dateFrom dateTo : string).

(** The outcome of a report call. *)
Inductive Response :=
| Resolved (data : json)
| Rejected (message : string).

(** Who awaits [generateReport]: a click handler, which ignores the
    promise, or [performAutoRefresh] of the render [v]. *)
Inductive Caller :=
| Direct
| AutoRefresh (v : State).

(** A [generateReport] suspended at its [await]. *)
Record Call := mkCall {
  call_id : nat;
  request : Request;
  silent : bool;
  caller : Caller
}.

(** How the promise returned by [generateReport] settles. *)
Inductive Settled :=
| Fulfilled
| RejectedWith (message : string).

(** The component together with its host: React keeps [cells]; each
    render reads them into [view], the values its closures see;
    [effect_view] is the render that last ran the refresh-lifecycle effect
    and so the one its pending cleanup closes over. *)
Record World := mkWorld {
  onNotification : bool;            (* is the prop supplied? *)
  mounted : bool;
  cells : State;
  view : State;
  effect_view : State;
  timers : list Timer;
  next_handle : TimerId;
  in_flight : list Call;
  next_call : nat;
  next_addr : nat;
  notifications : list (string * string)
}.

(** *** State setters *)

Definition with_cells (f : State -> State) (w : World) : World :=
  mkWorld (onNotification w) (mounted w) (f (cells w)) (view w)
          (effect_view w) (timers w) (next_handle w) (in_flight w)
          (next_call w) (next_addr w) (notifications w).

(** A setter of an unmounted component does nothing. *)
Definition setState (f : State -> State) (w : World) : World :=
  if mounted w then with_cells f w else w.

Definition setReportType (t : string) : World -> World :=
  setState (fun s =>
    mkState t (filters s) (reportData s) (reportDataAddr s) (loading s)
            (error s) (lastGenerated s) (refreshInterval s)
            (refreshCountdown s) (countdownInterval s) (isRefreshing s)
            (refreshSettings s) (retryCount s)).

Definition setFilters (f : Filters) : World -> World :=
  setState (fun s =>
    mkState (reportType s) f (reportData s) (reportDataAddr s) (loading s)
            (error s) (lastGenerated s) (refreshInterval s)
            (refreshCountdown s) (countdownInterval s) (isRefreshing s)
            (refreshSettings s) (retryCount s)).

Definition setReportData (data : json) (addr : nat) : World -> World :=
  setState (fun s =>
    mkState (reportType s) (filters s) data addr (loading s)
            (error s) (lastGenerated s) (refreshInterval s)
            (refreshCountdown s) (countdownInterval s) (isRefreshing s)
            (refreshSettings s) (retryCount s)).

Definition setLoading (b : bool) : World -> World :=
  setState (fun s =>
    mkState (reportType s) (filters s) (reportData s) (reportDataAddr s) b
            (error s) (lastGenerated s) (refreshInterval s)
            (refreshCountdown s) (countdownInterval s) (isRefreshing s)
            (refreshSettings s) (retryCount s)).

Definition setError (e : string) : World -> World :=
  setState (fun s =>
    mkState (reportType s) (filters s) (reportData s) (reportDataAddr s)
            (loading s) e (lastGenerated s) (refreshInterval s)
            (refreshCountdown s) (countdownInterval s) (isRefreshing s)
            (refreshSettings s) (retryCount s)).

Definition setLastGenerated (d : JS.Date) : World -> World :=
  setState (fun s =>
    mkState (reportType s) (filters s) (reportData s) (reportDataAddr s)
            (loading s) (error s) (Some d) (refreshInterval s)
            (refreshCountdown s) (countdownInterval s) (isRefreshing s)
            (refreshSettings s) (retryCount s)).

Definition setRefreshInterval (h : option TimerId) : World -> World :=
  setState (fun s =>
    mkState (reportType s) (filters s) (reportData s) (reportDataAddr s)
            (loading s) (error s) (lastGenerated s) h
            (refreshCountdown s) (countdownInterval s) (isRefreshing s)
            (refreshSettings s) (retryCount s)).

Definition setRefreshCountdown (f : Z -> Z) : World -> World :=
  setState (fun s =>
    mkState (reportType s) (filters s) (reportData s) (reportDataAddr s)
            (loading s) (error s) (lastGenerated s) (refreshInterval s)
            (f (refreshCountdown s)) (countdownInterval s) (isRefreshing s)
            (refreshSettings s) (retryCount s)).

Definition setCountdownInterval (h : option TimerId) : World -> World :=
  setState (fun s =>
    mkState (reportType s) (filters s) (reportData s) (reportDataAddr s)
            (loading s) (error s) (lastGenerated s) (refreshInterval s)
            (refreshCountdown s) h (isRefreshing s)
            (refreshSettings s) (retryCount s)).

Definition setIsRefreshing (b : bool) : World -> World :=
  setState (fun s =>
    mkState (reportType s) (filters s) (reportData s) (reportDataAddr s)
            (loading s) (error s) (lastGenerated s) (refreshInterval s)
            (refreshCountdown s) (countdownInterval s) b
            (refreshSettings s) (retryCount s)).

Definition setRefreshSettings (f : RefreshSettings -> RefreshSettings)
  : World -> World :=
  setState (fun s =>
    mkState (reportType s) (filters s) (reportData s) (reportDataAddr s)
            (loading s) (error s) (lastGenerated s) (refreshInterval s)
            (refreshCountdown s) (countdownInterval s) (isRefreshing s)
            (f (refreshSettings s)) (retryCount s)).

Definition setRetryCount (f : Z -> Z) : World -> World :=
  setState (fun s =>
    mkState (reportType s) (filters s) (reportData s) (reportDataAddr s)
            (loading s) (error s) (lastGenerated s) (refreshInterval s)
            (refreshCountdown s) (countdownInterval s) (isRefreshing s)
            (refreshSettings s) (f (retryCount s))).

(** *** The host: notifications, intervals, report calls *)

(** [if (onNotification) onNotification(message, type)] *)
Definition notify (message type : string) (w : World) : World :=
  if onNotification w then
    mkWorld (onNotification w) (mounted w) (cells w) (view w)
            (effect_view w) (timers w) (next_handle w) (in_flight w)
            (next_call w) (next_addr w)
            (notifications w ++ [(message, type)])%list
  else w.

Definition with_timers (ts : list Timer) (next : TimerId) (w : World) : World :=
  mkWorld (onNotification w) (mounted w) (cells w) (view w)
          (effect_view w) ts next (in_flight w)
          (next_call w) (next_addr w) (notifications w).

(** [setInterval(callback, delay)]: registers the callback and returns a
    fresh, nonzero handle. *)
Definition setInterval (cb : Callback) (v : State) (ms : Z) (w : World)
  : TimerId * World :=
  (next_handle w,
   with_timers (timers w ++ [mkTimer (next_handle w) cb v ms])%list
               (Pos.succ (next_handle w)) w).

(** [clearInterval(handle)] *)
Definition clearInterval (h : TimerId) (w : World) : World :=
  with_timers (filter (fun t => negb (Pos.eqb (handle t) h)) (timers w))
              (next_handle w) w.

Definition with_in_flight (cs : list Call) (next : nat) (w : World) : World :=
  mkWorld (onNotification w) (mounted w) (cells w) (view w)
          (effect_view w) (timers w) (next_handle w) cs
          next (next_addr w) (notifications w).

(** Issues a report call; [generateReport] is suspended until it settles. *)
Definition await_call (r : Request) (quiet : bool) (c : Caller) (w : World)
  : World :=
  with_in_flight (in_flight w ++ [mkCall (next_call w) r quiet c])%list
                 (S (next_call w)) w.

(** A response is a freshly parsed document at a fresh address. *)
Definition fresh_addr (w : World) : nat * World :=
  (next_addr w,
   mkWorld (onNotification w) (mounted w) (cells w) (view w)
           (effect_view w) (timers w) (next_handle w) (in_flight w)
           (next_call w) (S (next_addr w)) (notifications w)).

(** *** The component's functions

    Each takes the render [v] it was created in: a function defined in the
    component body reads the state variables of that render, whatever the
    cells hold by the time it runs. *)

(** [[
  const stopAutoRefresh = () => {
    if (refreshInterval) {
      clearInterval(refreshInterval);
      setRefreshInterval(null);
    }
    if (countdownInterval) {
      clearInterval(countdownInterval);
      setCountdownInterval(null);
    }
    setRefreshCountdown(0);
  };
]] *)
Definition stopAutoRefresh (v : State) (w : World) : World :=
  let w := match refreshInterval v with
           | Some h => setRefreshInterval None (clearInterval h w)
           | None => w
           end in
  let w := match countdownInterval v with
           | Some h => setCountdownInterval None (clearInterval h w)
           | None => w
           end in
  setRefreshCountdown (fun _ => 0) w.

(** [[
  const startAutoRefresh = () => {
    stopAutoRefresh(); // Clear any existing intervals
    const intervalMs = refreshSettings.interval * 1000;
    setRefreshCountdown(refreshSettings.interval);
    const countdown = setInterval(() => {
      setRefreshCountdown(prev => {
        if (prev <= 1) { return refreshSettings.interval; }
        return prev - 1;
      });
    }, 1000);
    const refresh = setInterval(async () => {
      if (!isRefreshing) { await performAutoRefresh(); }
    }, intervalMs);
    setCountdownInterval(countdown);
    setRefreshInterval(refresh);
  };
]] *)
Definition startAutoRefresh (v : State) (w : World) : World :=
  let w := stopAutoRefresh v w in
  let intervalMs := interval (refreshSettings v) * 1000 in
  let w := setRefreshCountdown (fun _ => interval (refreshSettings v)) w in
  let (countdown, w) := setInterval CountdownTick v 1000 w in
  let (refresh, w) := setInterval RefreshTick v intervalMs w in
  let w := setCountdownInterval (Some countdown) w in
  setRefreshInterval (Some refresh) w.

(** The rest of [performAutoRefresh] once [await generateReport(true)]
    has settled:
    [[
      setRetryCount(0); // Reset retry count on success
    } catch (error) {
      setRetryCount(prev => prev + 1);
      if (refreshSettings.pauseOnError && retryCount >= refreshSettings.maxRetries) {
        setRefreshSettings(prev => ({ ...prev, enabled: false }));
        if (onNotification) {
          onNotification(`Auto-refresh paused after ${refreshSettings.maxRetries} failed attempts`, 'warning');
        }
      }
    } finally {
      setIsRefreshing(false);
    }
    ]] *)
Definition performAutoRefresh_settled (v : State) (r : Settled) (w : World)
  : World :=
  let w :=
    match r with
    | Fulfilled => setRetryCount (fun _ => 0) w
    | RejectedWith _ =>
        let w := setRetryCount (fun prev => prev + 1) w in
        if pauseOnError (refreshSettings v)
           && (maxRetries (refreshSettings v) <=? retryCount v)
        then
          let w := setRefreshSettings
                     (fun prev => mkSettings (interval prev) false
                                             (pauseOnError prev) (maxRetries prev))
                     w in
          notify ("Auto-refresh paused after "
                  ++ JS.toString (maxRetries (refreshSettings v))
                  ++ " failed attempts") "warning" w
        else w
    end in
  setIsRefreshing false w.

(** [generateReport] has returned or reached the end of its
    [try]/[catch]/[finally]: its promise is fulfilled and the awaiting
    caller goes on. *)
Definition generateReport_done (c : Caller) (w : World) : World :=
  match c with
  | Direct => w
  | AutoRefresh v => performAutoRefresh_settled v Fulfilled w
  end.

(** [[
    } finally {
      if (!silent) setLoading(false);
    }
]] *)
Definition generateReport_finally (quiet : bool) (c : Caller) (w : World)
  : World :=
  generateReport_done c (if quiet then w else setLoading false w).

(** [[
    } catch (error) {
      const errorMsg = error.message || 'Failed to generate report';
      setError(errorMsg);
      if (onNotification) { onNotification(errorMsg, 'error'); }
    }
]] *)
Definition generateReport_catch (message : string) (quiet : bool)
    (c : Caller) (w : World) : World :=
  let errorMsg := JS.or_else message "Failed to generate report" in
  let w := setError errorMsg w in
  let w := notify errorMsg "error" w in
  generateReport_finally quiet c w.

(** The [switch (reportType)] of [generateReport]; [None] is its
    [default: throw new Error('Invalid report type')]. *)
Definition report_call (v : State) : option Request :=
  let f := filters v in
  if String.eqb (reportType v) "attendance-summary" then
    Some (generateAttendanceSummary (dateFrom f) (dateTo f) (department f))
  else if String.eqb (reportType v) "employee-performance" then
    Some (generateEmployeePerformance (employeeId f) (dateFrom f) (dateTo f))
  else if String.eqb (reportType v) "department" then
    Some (generateDepartmentReport (department f) (dateFrom f) (dateTo f))
  else None.

(** [generateReport(silent)] up to its [await]:
    [[
    if (!reportType) {
      setError('Please select a report type');
      if (onNotification) onNotification('Please select a report type', 'warning');
      return;
    }
    if (!filters.dateFrom || !filters.dateTo) {
      setError('Please select date range');
      if (onNotification) onNotification('Please select date range', 'warning');
      return;
    }
    if (reportType === 'employee-performance' && !filters.employeeId) {
      setError('Please select an employee for performance report');
      if (onNotification) onNotification('Please select an employee', 'warning');
      return;
    }
    if (reportType === 'department' && !filters.department) {
      setError('Please select a department for department report');
      if (onNotification) onNotification('Please select a department', 'warning');
      return;
    }
    if (!silent) setLoading(true);
    setError('');
    try { let data; switch (reportType) { ... data = await ...; } ...
    ]] *)
Definition generateReport (v : State) (quiet : bool) (c : Caller) (w : World)
  : World :=
  let f := filters v in
  if negb (JS.truthy (reportType v)) then
    let w := setError "Please select a report type" w in
    let w := notify "Please select a report type" "warning" w in
    generateReport_done c w
  else if negb (JS.truthy (dateFrom f)) || negb (JS.truthy (dateTo f)) then
    let w := setError "Please select date range" w in
    let w := notify "Please select date range" "warning" w in
    generateReport_done c w
  else if String.eqb (reportType v) "employee-performance"
          && negb (JS.truthy (employeeId f)) then
    let w := setError "Please select an employee for performance report" w in
    let w := notify "Please select an employee" "warning" w in
    generateReport_done c w
  else if String.eqb (reportType v) "department"
          && negb (JS.truthy (department f)) then
    let w := setError "Please select a department for department report" w in
    let w := notify "Please select a department" "warning" w in
    generateReport_done c w
  else
    let w := if quiet then w else setLoading true w in
    let w := setError "" w in
    match report_call v with
    | Some r => await_call r quiet c w
    | None => generateReport_catch "Invalid report type" quiet c w
    end.

(** [generateReport] from its [await] on:
    [[
      setReportData(data);
      setLastGenerated(new Date());
      if (onNotification && !silent) {
        onNotification('Report generated successfully', 'success');
      }
    } catch (error) { ... } finally { ... }
    ]] *)
Definition generateReport_resume (quiet : bool) (c : Caller) (r : Response)
    (now : JS.Date) (w : World) : World :=
  match r with
  | Resolved data =>
      let (addr, w) := fresh_addr w in
      let w := setReportData data addr w in
      let w := setLastGenerated now w in
      let w := if quiet then w
               else notify "Report generated successfully" "success" w in
      generateReport_finally quiet c w
  | Rejected message => generateReport_catch message quiet c w
  end.

(** [[
  const performAutoRefresh = async () => {
    setIsRefreshing(true);
    try {
      await generateReport(true);
      ...
]] *)
Definition performAutoRefresh (v : State) (w : World) : World :=
  let w := setIsRefreshing true w in
  generateReport v true (AutoRefresh v) w.

(** [[
  const toggleAutoRefresh = () => {
    setRefreshSettings(prev => ({ ...prev, enabled: !prev.enabled }));
    if (onNotification) {
      onNotification(
        refreshSettings.enabled ? 'Auto-refresh disabled' : 'Auto-refresh enabled',
        'info');
    }
  };
]] *)
Definition toggleAutoRefresh (v : State) (w : World) : World :=
  let w := setRefreshSettings
             (fun prev => mkSettings (interval prev) (negb (enabled prev))
                                     (pauseOnError prev) (maxRetries prev))
             w in
  notify (if enabled (refreshSettings v) then "Auto-refresh disabled"
          else "Auto-refresh enabled") "info" w.

(** What [exportReport] hands to the browser and to the notifier. *)
Record Export := mkExport {
  download : option (string * string);     (* file name, contents *)
  notice : option (string * string)        (* message, type *)
}.

(** [[
  const exportReport = () => {
    if (!reportData) {
      if (onNotification) { onNotification('No report data to export', 'warning'); }
      return;
    }
    const timestamp = new Date().toISOString().split('T')[0];
    const filename = `${reportType}-report-${timestamp}.json`;
    const dataStr = JSON.stringify(reportData, null, 2);
    ... link.download = filename; link.click(); ...
    if (onNotification) { onNotification(`Report exported as ${filename}`, 'success'); }
  };
]]
    [JSON_stringify] is the host's [JSON.stringify(value, null, 2)] and
    [now] its [new Date()]; [notifier] tells whether [onNotification] is
    supplied. *)
Definition exportReport (JSON_stringify : json -> string) (notifier : bool)
    (v : State) (now : JS.Date) : Export :=
  if negb (json_truthy (reportData v)) then
    mkExport None
      (if notifier then Some ("No report data to export", "warning") else None)
  else
    let timestamp := JS.split_head "T" (JS.toISOString now) in
    let filename := reportType v ++ "-report-" ++ timestamp ++ ".json" in
    let dataStr := JSON_stringify (reportData v) in
    mkExport (Some (filename, dataStr))
      (if notifier then Some ("Report exported as " ++ filename, "success")
       else None).

(** *** Rendering and the refresh-lifecycle effect

    [[
  useEffect(() => {
    if (refreshSettings.enabled && reportData && reportType) {
      startAutoRefresh();
    } else {
      stopAutoRefresh();
    }
    return () => stopAutoRefresh();
  }, [refreshSettings.enabled, reportData, reportType, refreshSettings.interval]);
    ]] *)
Definition refresh_effect (v : State) (w : World) : World :=
  if enabled (refreshSettings v) && json_truthy (reportData v)
     && JS.truthy (reportType v)
  then startAutoRefresh v w
  else stopAutoRefresh v w.

(** The cleanup returned by the effect of render [v]: that render's
    [stopAutoRefresh]. *)
Definition refresh_cleanup (v : State) (w : World) : World :=
  stopAutoRefresh v w.

(** Has one of the effect's dependencies changed between two renders? *)
Definition deps_changed (old new : State) : bool :=
  negb (Bool.eqb (enabled (refreshSettings old)) (enabled (refreshSettings new))
        && Object_is (reportDataAddr old, reportData old)
                     (reportDataAddr new, reportData new)
        && String.eqb (reportType old) (reportType new)
        && (interval (refreshSettings old) =? interval (refreshSettings new))).

Definition with_views (v e : State) (w : World) : World :=
  mkWorld (onNotification w) (mounted w) (cells w) v e
          (timers w) (next_handle w) (in_flight w)
          (next_call w) (next_addr w) (notifications w).

(** A render after some cells were set.  When a dependency changed, the
    cleanup of the previous run and then the effect of this render run;
    the cells the effect sets (handles, countdown) are seen by the render
    that follows, in which no dependency has changed. *)
Definition render (w : World) : World :=
  if mounted w then
    let v := cells w in
    if deps_changed (effect_view w) v then
      let w := refresh_cleanup (effect_view w) w in
      let w := refresh_effect v w in
      with_views (cells w) v w
    else with_views v (effect_view w) w
  else w.

(** The first render: the initial cells, then the effect. *)
Definition mount (notifier : bool) (from to : string) : World :=
  let s := mkState "" (mkFilters from to "" "") JNull 0 false "" None
                   None 0 None false (mkSettings 60 false true 3) 0 in
  let w := mkWorld notifier true s s s [] 1%positive [] 0 1 [] in
  let w := refresh_effect s w in
  with_views (cells w) s w.

(** Removing the component: the pending cleanup runs, and from then on
    its setters do nothing. *)
Definition unmount (w : World) : World :=
  let w := refresh_cleanup (effect_view w) w in
  mkWorld (onNotification w) false (cells w) (view w) (effect_view w)
          (timers w) (next_handle w) (in_flight w)
          (next_call w) (next_addr w) (notifications w).

(** *** Events *)

Inductive Event :=
| Click_reportType (t : string)      (* one of the three report buttons *)
| Change_dateFrom (value : string)   (* the "From Date" input *)
| Change_dateTo (value : string)     (* the "To Date" input *)
| Change_employeeId (value : string) (* the employee select *)
| Change_department (value : string) (* the department select *)
| Click_generate                     (* "Generate Report" or "Refresh" *)
| Change_autoRefresh                 (* the auto-refresh checkbox *)
| Change_interval (seconds : Z)      (* the interval select *)
| Fire (h : TimerId)                 (* the host runs an interval callback *)
| Settle (id : nat) (r : Response) (now : JS.Date)   (* a report call ends *)
| Unmount.

Definition find_timer (h : TimerId) (w : World) : option Timer :=
  find (fun t => Pos.eqb (handle t) h) (timers w).

Definition find_call (id : nat) (w : World) : option Call :=
  find (fun c => Nat.eqb (call_id c) id) (in_flight w).

Definition remove_call (id : nat) (w : World) : World :=
  with_in_flight (filter (fun c => negb (Nat.eqb (call_id c) id)) (in_flight w))
                 (next_call w) w.

(** The body of an interval callback. *)
Definition run_callback (t : Timer) (w : World) : World :=
  match callback t with
  | CountdownTick =>
      setRefreshCountdown
        (fun prev => if prev <=? 1 then interval (refreshSettings (captured t))
                     else prev - 1) w
  | RefreshTick =>
      if negb (isRefreshing (captured t)) then performAutoRefresh (captured t) w
      else w
  end.

(** What an event runs.  Controls act only while the component is mounted
    and the control is rendered and enabled: the generate buttons need
    [!loading] and a report type or a report, the checkbox needs a
    report, the interval select an enabled auto-refresh as well, the
    employee and department selects the report types they belong to. *)
Definition handle_event (e : Event) (w : World) : World :=
  let v := view w in
  match e with
  | Click_reportType t =>
      if mounted w && (String.eqb t "attendance-summary"
                       || String.eqb t "employee-performance"
                       || String.eqb t "department")
      then setReportType t w else w
  | Change_dateFrom value =>
      (* setFilters({ ...filters, dateFrom: e.target.value }) *)
      let f := filters v in
      if mounted w
      then setFilters (mkFilters value (dateTo f) (department f) (employeeId f)) w
      else w
  | Change_dateTo value =>
      let f := filters v in
      if mounted w
      then setFilters (mkFilters (dateFrom f) value (department f) (employeeId f)) w
      else w
  | Change_employeeId value =>
      let f := filters v in
      if mounted w && String.eqb (reportType v) "employee-performance"
      then setFilters (mkFilters (dateFrom f) (dateTo f) (department f) value) w
      else w
  | Change_department value =>
      let f := filters v in
      if mounted w && (String.eqb (reportType v) "attendance-summary"
                       || String.eqb (reportType v) "department")
      then setFilters (mkFilters (dateFrom f) (dateTo f) value (employeeId f)) w
      else w
  | Click_generate =>
      if mounted w && negb (loading v)
         && (JS.truthy (reportType v) || json_truthy (reportData v))
      then generateReport v false Direct w else w
  | Change_autoRefresh =>
      if mounted w && json_truthy (reportData v) then toggleAutoRefresh v w
      else w
  | Change_interval n =>
      if mounted w && json_truthy (reportData v) && enabled (refreshSettings v)
      then setRefreshSettings
             (fun prev => mkSettings n (enabled prev) (pauseOnError prev)
                                     (maxRetries prev)) w
      else w
  | Fire h =>
      match find_timer h w with
      | Some t => run_callback t w
      | None => w
      end
  | Settle id r now =>
      match find_call id w with
      | Some c => generateReport_resume (silent c) (caller c) r now
                                        (remove_call id w)
      | None => w
      end
  | Unmount => if mounted w then unmount w else w
  end.

(** One turn of the event loop: the handler, then the render it causes. *)
Definition step (w : World) (e : Event) : World := render (handle_event e w).

Definition run (w : World) (es : list Event) : World := fold_left step es w.

(** Reading a world. *)
Definition active_timers (w : World) : list (TimerId * Callback) :=
  map (fun t => (handle t, callback t)) (timers w).

Definition pending_requests (w : World) : list Request :=
  map request (in_flight w).

(** ** api.js: [RealTimeUpdates] *)

(** A JavaScript [Map] with string keys: entries in insertion order, one
    per key. *)
Definition JsMap (V : Type) := list (string * V).

(** [map.get(key)] *)
Definition map_get {V : Type} (key : string) (m : JsMap V) : option V :=
  option_map snd (find (fun kv => String.eqb (fst kv) key) m).

(** [map.set(key, value)]: an existing key keeps its place. *)
Fixpoint map_set {V : Type} (key : string) (value : V) (m : JsMap V) : JsMap V :=
  match m with
  | [] => [(key, value)]
  | (k, v) :: rest =>
      if String.eqb k key then (k, value) :: rest
      else (k, v) :: map_set key value rest
  end.

(** [map.delete(key)] *)
Definition map_delete {V : Type} (key : string) (m : JsMap V) : JsMap V :=
  filter (fun kv => negb (String.eqb (fst kv) key)) m.

(** An interval registered by [startPolling]: its handle, and the key and
    callback its wrapper closes over. *)
Record Polling := mkPolling {
  poll_handle : TimerId;
  poll_key : string;
  poll_callback : nat;
  poll_delay : Z
}.

(** A [RealTimeUpdates] object with the host's intervals and the calls
    made to the callbacks so far. *)
Record RealTimeUpdates := mkRealTime {
  intervals : JsMap TimerId;
  callbacks : JsMap nat;
  registered : list Polling;
  fresh_handle : TimerId;
  called : list nat
}.

(** [[
  constructor() {
    this.intervals = new Map();
    this.callbacks = new Map();
  }
]] *)
Definition RealTimeUpdates_new : RealTimeUpdates :=
  mkRealTime [] [] [] 1%positive [].

(** [[
  stopPolling(key) {
    const intervalId = this.intervals.get(key);
    if (intervalId) {
      clearInterval(intervalId);
      this.intervals.delete(key);
      this.callbacks.delete(key);
    }
  }
]] *)
Definition stopPolling (key : string) (u : RealTimeUpdates) : RealTimeUpdates :=
  match map_get key (intervals u) with
  | Some intervalId =>
      mkRealTime (map_delete key (intervals u)) (map_delete key (callbacks u))
                 (filter (fun p => negb (Pos.eqb (poll_handle p) intervalId))
                         (registered u))
                 (fresh_handle u) (called u)
  | None => u
  end.

(** [[
  startPolling(key, callback, interval = 30000) {
    this.stopPolling(key); // Stop existing polling
    this.callbacks.set(key, callback);
    const intervalId = setInterval(async () => {
      try { await callback(); } catch (error) { console.error(...); }
    }, interval);
    this.intervals.set(key, intervalId);
    // Initial call
    callback().catch(error => console.error(...));
  }
]] *)
Definition startPolling (key : string) (callback : nat) (ms : Z)
    (u : RealTimeUpdates) : RealTimeUpdates :=
  let u := stopPolling key u in
  let intervalId := fresh_handle u in
  mkRealTime (map_set key intervalId (intervals u))
             (map_set key callback (callbacks u))
             (registered u ++ [mkPolling intervalId key callback ms])%list
             (Pos.succ intervalId)
             (called u ++ [callback])%list.

(** [[
  stopAllPolling() {
    this.intervals.forEach((intervalId) => { clearInterval(intervalId); });
    this.intervals.clear();
    this.callbacks.clear();
  }
]] *)
Definition stopAllPolling (u : RealTimeUpdates) : RealTimeUpdates :=
  mkRealTime [] []
             (fold_left
                (fun ps kv =>
                   filter (fun p => negb (Pos.eqb (poll_handle p) (snd kv))) ps)
                (intervals u) (registered u))
             (fresh_handle u) (called u).

(** The host runs the wrapper of an interval: it calls the callback. *)
Definition poll_tick (h : TimerId) (u : RealTimeUpdates) : RealTimeUpdates :=
  match find (fun p => Pos.eqb (poll_handle p) h) (registered u) with
  | Some p => mkRealTime (intervals u) (callbacks u) (registered u)
                         (fresh_handle u) (called u ++ [poll_callback p])%list
  | None => u
  end.

Inductive PollingOp :=
| StartPolling (key : string) (callback : nat) (ms : Z)
| StopPolling (key : string)
| StopAllPolling
| PollTick (h : TimerId).

Definition polling_step (u : RealTimeUpdates) (op : PollingOp) : RealTimeUpdates :=
  match op with
  | StartPolling key callback ms => startPolling key callback ms u
  | StopPolling key => stopPolling key u
  | StopAllPolling => stopAllPolling u
  | PollTick h => poll_tick h u
  end.

(** The intervals registered with the host are those of the [intervals]
    map, entry by entry, each calling the callback stored for its key. *)
Definition polling_consistent (u : RealTimeUpdates) : Prop :=
  map (fun p => (poll_key p, poll_handle p)) (registered u) = intervals u
  /\ map (fun p => (poll_key p, poll_callback p)) (registered u) = callbacks u
  /\ NoDup (map poll_key (registered u))
  /\ NoDup (map poll_handle (registered u))
  /\ (forall p, In p (registered u) -> (poll_handle p < fresh_handle u)%positive).

(** ** App: notifications *)

Record Notification := mkNotification {
  note_id : Z;               (* Date.now() at creation *)
  note_message : string;
  note_type : string
}.

(** The state update of [addNotification]:
    [[
    setNotifications(prev => [notification, ...prev.slice(0, 4)]); // Keep only 5 notifications
    ]] *)
Definition addNotification (notification : Notification)
    (prev : list Notification) : list Notification :=
  notification :: firstn 4 prev.

(** [removeNotification(id)], and the update scheduled by
    [addNotification] for five seconds later:
    [[
    setNotifications(prev => prev.filter(n => n.id !== id));
    ]] *)
Definition removeNotification (id : Z) (prev : list Notification)
  : list Notification :=
  filter (fun n => negb (note_id n =? id)) prev.

Inductive NotificationOp :=
| AddNotification (n : Notification)
| RemoveNotification (id : Z).

Definition notification_step (prev : list Notification) (op : NotificationOp)
  : list Notification :=
  match op with
  | AddNotification n => addNotification n prev
  | RemoveNotification id => removeNotification id prev
  end.

(** ** ProfessionalAttendance: status badges and the three counters *)

(** A JSON field that holds a number: the key may be missing
    ([undefined]), hold [null], or a number (whole minutes here). *)
Inductive NumberField :=
| Undefined
| Null
| Num (n : Z).

(** A row of [/api/attendance/today].  A time is [null] ([None]) or an
    ISO string. *)
Record TodayRow := mkTodayRow {
  today_employee_id : string;
  is_checked_in : bool;
  today_check_in_time : option string;
  today_check_out_time : option string;
  today_is_auto_checkout : bool;
  time_until_auto_checkout : NumberField
}.

(** An employee of the directory. *)
Record Employee := mkEmployee {
  emp_employee_id : string;
  emp_full_name : string;
  emp_department : string;
  emp_status : string
}.

(** Truthiness of a nullable string. *)
Definition time_truthy (t : option string) : bool :=
  match t with Some s => JS.truthy s | None => false end.

(** [timeLeft <= 60]: [null] counts as 0, [undefined] compares false. *)
Definition at_most_60 (timeLeft : NumberField) : bool :=
  match timeLeft with
  | Undefined => false
  | Null => true
  | Num n => n <=? 60
  end.

Inductive Badge :=
| AutoCheckoutIn (timeLeft : NumberField)   (* "Auto-checkout in {timeLeft}m" *)
| CheckedIn                                 (* "Checked In" *)
| AutoCheckedOut                            (* "Auto Checked Out" *)
| CheckedOut                                (* "Checked Out" *)
| NotCheckedIn.                             (* "Not Checked In" *)

(** [[
  const getStatusBadge = (employee) => {
    if (employee.is_checked_in) {
      const timeLeft = employee.time_until_auto_checkout;
      if (timeLeft <= 60) { return <span ...>Auto-checkout in {timeLeft}m</span>; }
      return <span ...>Checked In</span>;
    }
    if (employee.check_out_time) {
      return <span ...>{employee.is_auto_checkout ? 'Auto Checked Out' : 'Checked Out'}</span>;
    }
    return <span ...>Not Checked In</span>;
  };
]] *)
Definition getStatusBadge (employee : TodayRow) : Badge :=
  if is_checked_in employee then
    let timeLeft := time_until_auto_checkout employee in
    if at_most_60 timeLeft then AutoCheckoutIn timeLeft else CheckedIn
  else if time_truthy (today_check_out_time employee) then
    if today_is_auto_checkout employee then AutoCheckedOut else CheckedOut
  else NotCheckedIn.

Record TodayStats := mkTodayStats {
  checkedIn : Z;
  checkedOut : Z;
  notCheckedIn : Z
}.

(** The employees listed below the attendance rows:
    [[
    employees.filter(emp =>
      emp.status === 'Active' &&
      !todayAttendance.find(att => att.employee_id === emp.employee_id))
    ]] *)
Definition not_yet_listed (todayAttendance : list TodayRow)
    (employees : list Employee) : list Employee :=
  filter (fun emp =>
            String.eqb (emp_status emp) "Active"
            && negb (existsb (fun att => String.eqb (today_employee_id att)
                                                    (emp_employee_id emp))
                             todayAttendance))
         employees.

(** [[
  const stats = {
    checkedIn: todayAttendance.filter(emp => emp.is_checked_in).length,
    checkedOut: todayAttendance.filter(emp => emp.check_out_time && !emp.is_checked_in).length,
    notCheckedIn: employees.filter(emp =>
      emp.status === 'Active' &&
      !todayAttendance.find(att => att.employee_id === emp.employee_id)
    ).length
  };
]] *)
Definition today_stats (todayAttendance : list TodayRow)
    (employees : list Employee) : TodayStats :=
  mkTodayStats
    (Z.of_nat (List.length (filter is_checked_in todayAttendance)))
    (Z.of_nat (List.length
                 (filter (fun emp => time_truthy (today_check_out_time emp)
                                     && negb (is_checked_in emp))
                         todayAttendance)))
    (Z.of_nat (List.length (not_yet_listed todayAttendance employees))).

(** The row offers the "Check In" button:
    [{!employee.is_checked_in && !employee.check_in_time && ( <button ...>Check In</button> )}] *)
Definition offers_check_in (employee : TodayRow) : bool :=
  negb (is_checked_in employee) && negb (time_truthy (today_check_in_time employee)).

Definition badge_checked_in (b : Badge) : bool :=
  match b with AutoCheckoutIn _ | CheckedIn => true | _ => false end.

Definition badge_checked_out (b : Badge) : bool :=
  match b with AutoCheckedOut | CheckedOut => true | _ => false end.

Definition badge_not_checked_in (b : Badge) : bool :=
  match b with NotCheckedIn => true | _ => false end.

Definition count_badges (p : Badge -> bool) (rows : list TodayRow) : Z :=
  Z.of_nat (List.length (filter (fun r => p (getStatusBadge r)) rows)).

(** ** AttendanceManagement: what the statistics count *)

(** A status that [getAttendanceStats] counts. *)
Definition counted_status (s : string) : bool :=
  String.eqb s "Present" || String.eqb s "Absent" || String.eqb s "Late".

(** A total that is not 0 is not [=== 0] as a double. *)
Definition nonzero_total (t : Z) : bool :=
  (t =? 0) || negb (PrimFloat.eqb (JS.num t) 0).

(** ** apiUtils: [formatWorkingHours] *)

(** The integer a finite double stands for, when it is one. *)
Definition to_integer (x : float) : option Z :=
  match Prim2SF x with
  | S754_zero _ => Some 0
  | S754_finite s m e =>
      let n := if s then Z.neg m else Z.pos m in
      if 0 <=? e then Some (n * 2 ^ e)
      else if n mod 2 ^ (- e) =? 0 then Some (n / 2 ^ (- e)) else None
  | _ => None
  end.

(** [Math.floor]; zeros, NaN and the infinities are returned unchanged. *)
Definition Math_floor (x : float) : float :=
  match Prim2SF x with
  | S754_finite s m e =>
      let n := if s then Z.neg m else Z.pos m in
      if 0 <=? e then x else JS.num (n / 2 ^ (- e))
  | _ => x
  end.

(** [`${x}`] for a number: the decimal digits of an integer below 10^21 in
    absolute value, ["NaN"], ["Infinity"] and ["-Infinity"].  The other
    numbers (fractions, integers printed with an exponent) are outside
    the model: [None]. *)
Definition number_toString (x : float) : option string :=
  if PrimFloat.is_nan x then Some "NaN"
  else if PrimFloat.is_infinity x then
    Some (if PrimFloat.ltb x 0 then "-Infinity" else "Infinity")
  else
    match to_integer x with
    | Some z => if Z.abs z <? 10 ^ 21 then Some (JS.toString z) else None
    | None => None
    end.

(** The [hours] argument: absent, or a number. *)
Inductive HoursArg :=
| NoHours
| Hours (h : float).

(** [[
  formatWorkingHours: (hours) => {
    if (!hours || hours === 0) return '0h 0m';
    const wholeHours = Math.floor(hours);
    const minutes = Math.round((hours - wholeHours) * 60);
    return `${wholeHours}h ${minutes}m`;
  },
]] *)
Definition formatWorkingHours (hours : HoursArg) : option string :=
  match hours with
  | NoHours => Some "0h 0m"
  | Hours h =>
      if (PrimFloat.eqb h 0 || PrimFloat.is_nan h) || PrimFloat.eqb h 0
      then Some "0h 0m"
      else
        let wholeHours := Math_floor h in
        let minutes := JS.Math_round (PrimFloat.mul (PrimFloat.sub h wholeHours) 60) in
        match number_toString wholeHours, number_toString minutes with
        | Some a, Some b => Some (a ++ "h " ++ b ++ "m")
        | _, _ => None
        end
  end.

(** Hours given in hundredths, [k / 100]: the label has the whole hours
    and the nearest minute of the rest, which is below 60. *)
Definition hundredths_ok (k : Z) : bool :=
  let minutes := (60 * (k mod 100) + 50) / 100 in
  (minutes <? 60)
  && match formatWorkingHours (Hours (PrimFloat.div (JS.num k) 100)) with
     | Some s => String.eqb s (JS.toString (k / 100) ++ "h "
                               ++ JS.toString minutes ++ "m")
     | None => false
     end.

(** Hours that are a whole number of minutes, [m / 60]. *)
Definition sixtieths_ok (m : Z) : bool :=
  match formatWorkingHours (Hours (PrimFloat.div (JS.num m) 60)) with
  | Some s => String.eqb s (JS.toString (m / 60) ++ "h "
                            ++ JS.toString (m mod 60) ++ "m")
  | None => false
  end.

(** ** apiUtils: [formatDisplayTime] *)

(** [s.split(sep)] for a one-character separator. *)
Fixpoint split (sep : ascii) (s : string) : list string :=
  match s with
  | EmptyString => [EmptyString]
  | String c rest =>
      if Ascii.eqb c sep then EmptyString :: split sep rest
      else match split sep rest with
           | [] => [String c EmptyString]
           | first :: others => String c first :: others
           end
  end.

(** The value of a digit in the given base (10 or 16). *)
Definition digit_value (base : Z) (c : ascii) : option Z :=
  let n := Z.of_nat (nat_of_ascii c) in
  if (48 <=? n) && (n <=? 57) then Some (n - 48)
  else if (base =? 16) && (97 <=? n) && (n <=? 102) then Some (n - 87)
  else if (base =? 16) && (65 <=? n) && (n <=? 70) then Some (n - 55)
  else None.

(** The digits at the start of [s], read in the base after [acc]. *)
Fixpoint read_digits (base acc : Z) (s : string) : Z :=
  match s with
  | EmptyString => acc
  | String c rest =>
      match digit_value base c with
      | Some d => read_digits base (base * acc + d) rest
      | None => acc
      end
  end.

(** Tab, line feed, vertical tab, form feed, carriage return, space. *)
Definition is_space (c : ascii) : bool :=
  let n := nat_of_ascii c in
  ((9 <=? n) && (n <=? 13))%nat || (n =? 32)%nat.

Fixpoint skip_spaces (s : string) : string :=
  match s with
  | String c rest => if is_space c then skip_spaces rest else s
  | EmptyString => s
  end.

Fixpoint all_ascii (s : string) : bool :=
  match s with
  | EmptyString => true
  | String c rest => (nat_of_ascii c <? 128)%nat && all_ascii rest
  end.

(** What [parseInt] gives. *)
Inductive Parsed :=
| Int (n : Z)
| NaN
| Unmodelled.

(** [parseInt(s)]: leading white space and a sign are skipped, a ["0x"]
    prefix selects base 16, and the leading digits are read; without a
    digit the result is [NaN].  A string with a character outside ASCII
    (whose white space is not modelled) or a value of 2^53 or more (which
    a double rounds) is [Unmodelled]. *)
Definition parseInt (s : string) : Parsed :=
  if negb (all_ascii s) then Unmodelled
  else
    let s := skip_spaces s in
    let (negative, body) :=
      match s with
      | String "-" rest => (true, rest)
      | String "+" rest => (false, rest)
      | _ => (false, s)
      end in
    let (base, digits) :=
      match body with
      | String "0" (String "x" rest) | String "0" (String "X" rest) => (16, rest)
      | _ => (10, body)
      end in
    match digits with
    | EmptyString => NaN
    | String c _ =>
        match digit_value base c with
        | None => NaN
        | Some _ =>
            let n := read_digits base 0 digits in
            if n <? 2 ^ 53 then Int (if negative then - n else n)
            else Unmodelled
        end
    end.

(** The [timeString] argument: absent, or a string. *)
Inductive TimeArg :=
| NoTime
| Time (s : string).

(** The last three lines of [formatDisplayTime]:
    [[
    const ampm = hour >= 12 ? 'PM' : 'AM';
    const displayHour = hour % 12 || 12;
    return `${displayHour}:${minutes} ${ampm}`;
    ]]
    [NaN >= 12] is false and [NaN % 12 || 12] is 12; [minutes] is
    [undefined] when the string has no colon. *)
Definition display_time (hour : Parsed) (minutes : option string)
  : option string :=
  let minutes_text := match minutes with Some m => m | None => "undefined" end in
  match hour with
  | Int h =>
      let ampm := if 12 <=? h then "PM" else "AM" in
      let displayHour := if Z.rem h 12 =? 0 then 12 else Z.rem h 12 in
      Some (JS.toString displayHour ++ ":" ++ minutes_text ++ " " ++ ampm)
  | NaN => Some ("12:" ++ minutes_text ++ " AM")
  | Unmodelled => None
  end.

(** [[
  formatDisplayTime: (timeString) => {
    if (!timeString) return '';
    const [hours, minutes] = timeString.split(':');
    const hour = parseInt(hours);
    ...
  },
]] *)
Definition formatDisplayTime (timeString : TimeArg) : option string :=
  match timeString with
  | NoTime => Some ""
  | Time s =>
      if negb (JS.truthy s) then Some ""
      else
        let parts := split ":" s in
        let hours := nth 0 parts "" in
        let minutes := nth_error parts 1 in
        let hour := parseInt hours in
        display_time hour minutes
  end.

(** ** Reports: the department options of [loadEmployees] *)

(** [[...new Set(values)]]: the values in the order of their first
    occurrence. *)
Fixpoint Set_values (seen values : list string) : list string :=
  match values with
  | [] => seen
  | x :: rest =>
      if existsb (String.eqb x) seen then Set_values seen rest
      else Set_values (seen ++ [x]) rest
  end.

(** [[
      const uniqueDepts = [...new Set(data.map(emp => emp.department))];
]] *)
Definition uniqueDepts (data : list Employee) : list string :=
  Set_values [] (map emp_department data).

(** ** apiUtils: [validateEmployeeId] and the employee paths *)

(** The class [[A-Za-z0-9_-]]. *)
Definition id_char (c : ascii) : bool :=
  let n := nat_of_ascii c in
  (((65 <=? n) && (n <=? 90)) || ((97 <=? n) && (n <=? 122))
   || ((48 <=? n) && (n <=? 57)) || (n =? 95) || (n =? 45))%nat.

Fixpoint all_chars (p : ascii -> bool) (s : string) : bool :=
  match s with
  | EmptyString => true
  | String c rest => p c && all_chars p rest
  end.

(** [[
  validateEmployeeId: (employeeId) => {
    const idRegex = /^[A-Za-z0-9_-]+$/;
    return idRegex.test(employeeId) && employeeId.length <= 20;
  },
]] *)
Definition validateEmployeeId (employeeId : string) : bool :=
  (JS.truthy employeeId && all_chars id_char employeeId)
  && (String.length employeeId <=? 20)%nat.

(** [[ getById: (employeeId) => api.get(`/api/employees/${employeeId}`) ]],
    the path also used by [update] and [delete]. *)
Definition employee_path (employeeId : string) : string :=
  "/api/employees/" ++ employeeId.

(** ** Vocabulary of the properties *)

(** The report type asks for a filter that is empty. *)
Definition missing_filter (v : State) : Prop :=
  (reportType v = "employee-performance" /\ employeeId (filters v) = "")
  \/ (reportType v = "department" /\ department (filters v) = "").

(** The two messages by which [generateReport] reports a missing filter. *)
Definition MissingFilter (message : string) : Prop :=
  message = "Please select an employee for performance report"
  \/ message = "Please select a department for department report".

(** The date range a report call carries. *)
Definition request_range (r : Request) : string * string :=
  match r with
  | generateAttendanceSummary from to _ => (from, to)
  | generateEmployeePerformance _ from to => (from, to)
  | generateDepartmentReport _ from to => (from, to)
  end.

(** [sep] does not occur in [s]. *)
Fixpoint lacks (sep : ascii) (s : string) : bool :=
  match s with
  | EmptyString => true
  | String c rest => negb (Ascii.eqb c sep) && lacks sep rest
  end.

(** [YYYY-MM-DD] *)
Definition isoDate (d : JS.Date) : string :=
  JS.pad 4 (JS.year d) ++ "-" ++ JS.pad 2 (JS.month d) ++ "-"
  ++ JS.pad 2 (JS.day d).

(** A padded field has the given width and no ["T"] in it. *)
Definition field_ok (width : nat) (n : Z) : bool :=
  lacks "T" (JS.pad width n) && Nat.eqb (String.length (JS.pad width n)) width.

(** [f] holds on 0, ..., n-1. *)
Fixpoint all_below (f : Z -> bool) (n : nat) : bool :=
  match n with
  | O => true
  | S k => f (Z.of_nat k) && all_below f k
  end.

(** [f n total] holds for all [0 <= n <= total < bound]. *)
Definition all_pairs_below (f : Z -> Z -> bool) (bound : nat) : bool :=
  all_below (fun total => all_below (fun n => f n total) (S (Z.to_nat total)))
            bound.

(** [calculateAttendanceRate] gives the specified rate, or one less when
    [100 * n / total] lies exactly halfway between two integers. *)
Definition rate_close (n total : Z) : bool :=
  let r := calculateAttendanceRate (JS.num n) (JS.num total) in
  let s := attendance_rate_spec n total in
  PrimFloat.eqb r (JS.num s)
  || (((200 * n) mod (2 * total) =? total) && PrimFloat.eqb r (JS.num (s - 1))).

(** A notification of type ['warning']; the pause notice is one, a failed
    report is notified with type ['error']. *)
Definition is_warning (n : string * string) : bool :=
  String.eqb (snd n) "warning".

(** [h] is one of the two handles held by the render [v]. *)
Definition held_by (v : State) (h : TimerId) : bool :=
  match refreshInterval v with Some r => Pos.eqb h r | None => false end
  || match countdownInterval v with Some c => Pos.eqb h c | None => false end.

(** [Math.floor(minutes / 60)], computed on doubles, is the double of the
    integer quotient. *)
Definition floor_quotient_ok (m : Z) : bool :=
  PrimFloat.eqb (Math_floor (PrimFloat.div (JS.num m) 60)) (JS.num (m / 60)).

(** The record is dated [day]. *)
Definition dated (day : string) (r : AttendanceRow) : bool :=
  String.eqb (row_date r) day.

(** The number of records that satisfy [p]. *)
Definition count_where (p : AttendanceRow -> bool)
    (rows : list AttendanceRow) : Z :=
  Z.of_nat (List.length (filter p rows)).

(** *** The refresh controller between events *)

(** The condition under which the refresh-lifecycle effect starts the
    intervals. *)
Definition refresh_wanted (v : State) : bool :=
  enabled (refreshSettings v) && json_truthy (reportData v)
  && JS.truthy (reportType v).

(** The intervals registered with the host are those the effect wants:
    none, or one countdown and one refresh trigger created by the render
    that last ran the effect, with their handles in the cells. *)
Definition timers_settled (w : World) : Prop :=
  if refresh_wanted (effect_view w) then
    exists c r,
      timers w
      = [mkTimer c CountdownTick (effect_view w) 1000;
         mkTimer r RefreshTick (effect_view w)
                 (interval (refreshSettings (effect_view w)) * 1000)]
      /\ countdownInterval (cells w) = Some c
      /\ refreshInterval (cells w) = Some r
  else
    timers w = []
    /\ countdownInterval (cells w) = None
    /\ refreshInterval (cells w) = None.

Definition tidy (w : World) : Prop :=
  mounted w = true
  /\ view w = cells w
  /\ deps_changed (effect_view w) (cells w) = false
  /\ timers_settled w.

(** The dependencies of the refresh-lifecycle effect. *)
Definition deps_of (s : State) : bool * (nat * json) * string * Z :=
  (enabled (refreshSettings s), (reportDataAddr s, reportData s),
   reportType s, interval (refreshSettings s)).

(** The countdown shown next to the checkbox: 0 while no interval runs,
    otherwise between 1 and the refresh interval. *)
Definition countdown_in_range (w : World) : Prop :=
  1 <= interval (refreshSettings (cells w))
  /\ if refresh_wanted (effect_view w)
     then 1 <= refreshCountdown (cells w) <= interval (refreshSettings (cells w))
     else refreshCountdown (cells w) = 0.

(** Every interval chosen in the select is at least one second. *)
Definition intervals_positive (es : list Event) : Prop :=
  forall n, In (Change_interval n) es -> 1 <= n.

(** ** Scenarios *)

Definition sample_report : json :=
  JObject [("summary", JObject [("attendance_rate", JNumber 58)])].

Definition noon : JS.Date := JS.mkDate 2026 3 9 12 0 0 0.

Definition today : string := "2026-03-09".

(** Forty records of today: 20 present, 3 late, 17 absent. *)
Definition forty_rows : list AttendanceRow :=
  (repeat (mkRow "E" today "Present") 20 ++ repeat (mkRow "E" today "Late") 3
   ++ repeat (mkRow "E" today "Absent") 17)%list.

(** An employee who checked in at 08:00 and has not checked out. *)
Definition open_record : AttendanceRecord :=
  mkRecord "E2" today "Present" (Some 480) None false "".

(** An employee who checked in at 09:00 and out at 17:30. *)
Definition closed_record : AttendanceRecord :=
  mkRecord "E1" today "Present" (Some 540) (Some 1050) false "".

(** The Department Report has been chosen and no department selected. *)
Definition department_selected : World :=
  run (mount true "2026-02-07" "2026-03-09") [Click_reportType "department"].

(** The same with the To Date cleared. *)
Definition department_without_end : World :=
  run department_selected [Change_dateTo ""].

(** The Attendance Summary has been chosen, with the default range. *)
Definition summary_selected : World :=
  run (mount true "2026-02-07" "2026-03-09")
      [Click_reportType "attendance-summary"].

(** The same with the range set to 2026-03-09 .. 2026-02-07, whose start
    lies after its end. *)
Definition inverted_selected : World :=
  run summary_selected
      [Change_dateFrom "2026-03-09"; Change_dateTo "2026-02-07"].

(** A summary has been generated and auto-refresh switched on: the
    countdown is interval 1, the refresh trigger interval 2. *)
Definition refreshing : World :=
  run (mount true "2026-02-07" "2026-03-09")
      [Click_reportType "attendance-summary";
       Click_generate;
       Settle 0 (Resolved sample_report) noon;
       Change_autoRefresh].

(** The same with the interval select set to 30 seconds: the effect has
    restarted the intervals, now 3 (countdown) and 4 (refresh trigger). *)
Definition refreshing_every_30 : World := step refreshing (Change_interval 30).

Definition summary_request : Request :=
  generateAttendanceSummary "2026-02-07" "2026-03-09" "".

(** Scheduled refreshes failing one after the other with the given
    messages, the first call being number [id]. *)
Fixpoint failing_refreshes (id : nat) (messages : list string) : list Event :=
  match messages with
  | [] => []
  | m :: rest =>
      Fire 2%positive :: Settle id (Rejected m) noon
      :: failing_refreshes (S id) rest
  end.

(** [refreshing] after some scheduled refreshes have failed: [next]
    report calls were issued so far, [log] was notified, [err] is shown. *)
Definition stalled (next : nat) (log : list (string * string)) (err : string)
  : World :=
  let s := cells (setError err refreshing) in
  mkWorld true true s s (effect_view refreshing) (timers refreshing)
          3%positive [] next 2%nat log.

(** * Properties *)

Ltac case_ifs :=
  repeat match goal with
         | |- context [if ?b then _ else _] => destruct b
         | |- context [match ?x with Some _ => _ | None => _ end] => destruct x
         end.

Ltac open_world w :=
  destruct w as [notifier live cs vw ev ts nh fl nc na log];
  destruct live, notifier.

Ltac open_state v :=
  destruct v as [rt [from to dept emp] rd ra ld er lg ri rc ci ir rs rn];
  cbn [reportType filters dateFrom dateTo department employeeId] in *.

(** ** Strings and bounded checks *)

Lemma append_assoc (s t u : string) : (s ++ t) ++ u = s ++ (t ++ u).
Proof. induction s as [| c s IH]; cbn; [reflexivity | now rewrite IH]. Qed.

Lemma length_app (s t : string) :
  String.length (s ++ t) = (String.length s + String.length t)%nat.
Proof. induction s as [| c s IH]; cbn; [reflexivity | now rewrite IH]. Qed.

Lemma lacks_app (sep : ascii) (s t : string) :
  lacks sep (s ++ t) = lacks sep s && lacks sep t.
Proof.
  induction s as [| c s IH]; cbn; [reflexivity |].
  now rewrite IH, andb_assoc.
Qed.

Lemma split_head_app (sep : ascii) (s rest : string) :
  lacks sep s = true -> JS.split_head sep (s ++ String sep rest) = s.
Proof.
  induction s as [| c s IH]; cbn; intros H.
  - now rewrite Ascii.eqb_refl.
  - apply andb_true_iff in H as [Hc Hs].
    apply negb_true_iff in Hc. rewrite Hc. now rewrite IH.
Qed.

Lemma all_below_spec (f : Z -> bool) (n : nat) :
  all_below f n = true -> forall z, 0 <= z < Z.of_nat n -> f z = true.
Proof.
  induction n as [| k IH]; intros Hall z Hz.
  - cbn in Hz. lia.
  - cbn [all_below] in Hall. apply andb_true_iff in Hall as [Hk Hrest].
    destruct (Z.eq_dec z (Z.of_nat k)) as [-> | Hne]; [exact Hk |].
    apply IH; [exact Hrest | lia].
Qed.

Lemma all_pairs_below_spec (f : Z -> Z -> bool) (bound : nat) :
  all_pairs_below f bound = true ->
  forall n total, 0 <= n <= total -> total < Z.of_nat bound -> f n total = true.
Proof.
  intros Hall n total Hn Ht.
  pose proof (all_below_spec _ _ Hall total ltac:(lia)) as Hrow.
  apply (all_below_spec _ _ Hrow n).
  rewrite Nat2Z.inj_succ, Z2Nat.id by lia. lia.
Qed.

(** ** Time accounting: [formatDuration] *)

Lemma safe_integer_spec (m : Z) :
  - 2 ^ 53 < m < 2 ^ 53 -> JS.safe_integer m = true.
Proof.
  unfold JS.safe_integer. change (2 ^ 53) with 9007199254740992.
  intros Hm. apply Z.ltb_lt. lia.
Qed.

Lemma formatDuration_positive (m : Z) :
  0 < m < 2 ^ 53 ->
  formatDuration (Minutes m)
  = Some (Returns (JS.toString (m / 60) ++ "h "
                   ++ JS.toString (m mod 60) ++ "m")).
Proof.
  intros Hm. unfold formatDuration.
  rewrite safe_integer_spec
    by (change (2 ^ 53) with 9007199254740992 in *; lia).
  replace (m =? 0) with false by (symmetry; apply Z.eqb_neq; lia).
  replace (m <=? 0) with false by (symmetry; apply Z.leb_gt; lia).
  cbn [orb negb]. rewrite Z.rem_mod_nonneg by lia. reflexivity.
Qed.

Lemma formatDuration_nonpositive (m : Z) :
  - 2 ^ 53 < m <= 0 -> formatDuration (Minutes m) = Some (Returns "0h 0m").
Proof.
  intros Hm. unfold formatDuration.
  rewrite safe_integer_spec
    by (change (2 ^ 53) with 9007199254740992 in *; lia).
  replace (m <=? 0) with true by (symmetry; apply Z.leb_le; lia).
  cbn [negb]. now rewrite orb_true_r.
Qed.

(** The step from doubles to integers in [formatDuration], checked on
    doubles at both ends of the range: for the first 1024 whole numbers
    and for the last 1024 below 2^53, [Math.floor(minutes / 60)] is the
    integer quotient. *)
Lemma formatDuration_quotient_on_doubles (k : Z) :
  0 <= k < 1024 ->
  floor_quotient_ok k = true /\ floor_quotient_ok (2 ^ 53 - 1 - k) = true.
Proof.
  intros Hk.
  apply (all_below_spec
           (fun k => floor_quotient_ok k
                     && floor_quotient_ok (2 ^ 53 - 1 - k))
           (Z.to_nat 1024)) in Hk.
  - now apply andb_true_iff in Hk.
  - vm_compute. reflexivity.
Qed.




(** ** Attendance rate *)

Lemma calculateAttendanceRate_no_records (n : float) :
  calculateAttendanceRate n (JS.num 0) = JS.num 0.
Proof. reflexivity. Qed.

Lemma attendanceRateCard_no_records (today' : string) :
  getAttendanceStats today' [] = mkStats 0 0 0 0
  /\ attendanceRateCard (getAttendanceStats today' []) = None.
Proof. split; reflexivity. Qed.

(** Up to 366 records, the computed rate is the specified one, except
    that it can be one less when [100 * n / total] is exactly halfway. *)
Lemma calculateAttendanceRate_close (n total : Z) :
  0 <= n <= total -> total <= 366 -> rate_close n total = true.
Proof.
  intros Hn Ht.
  apply (all_pairs_below_spec rate_close 367).
  - vm_compute. reflexivity.
  - exact Hn.
  - change (Z.of_nat 367) with 367. lia.
Qed.

(** C2 at 23 present-or-late records out of 40: the double nearest to
    [23 / 40] lies just below 0.575 and its product with 100 is the double
    just below 57.5 (printed 57.49999999999999), so both
    [calculateAttendanceRate] and the rate card give 57, where
    [round(100 * 23 / 40) = round(57.5)] is 58. *)
Theorem rate_of_23_in_40 :
  PrimFloat.mul (PrimFloat.div (JS.num 23) (JS.num 40)) 100
  = 0x1.cbfffffffffffp+5%float
  /\ calculateAttendanceRate (JS.num 23) (JS.num 40) = JS.num 57
  /\ getAttendanceStats today forty_rows = mkStats 20 17 3 40
  /\ attendanceRateCard (getAttendanceStats today forty_rows) = Some (JS.num 57)
  /\ attendance_rate_spec 23 40 = 58.
Proof. vm_compute. repeat split. Qed.

(** ** Auto-checkout *)

Lemma applyAutoCheckoutIfDue_idempotent (ceiling : Z) (record : AttendanceRecord)
    (now : Z) :
  applyAutoCheckoutIfDue ceiling (applyAutoCheckoutIfDue ceiling record now) now
  = applyAutoCheckoutIfDue ceiling record now.
Proof.
  destruct record as [e d s [t |] [o |] a n]; cbn; try reflexivity.
  destruct (ceiling <=? now - t) eqn:Hdue; cbn; [reflexivity |].
  now rewrite Hdue.
Qed.

(** Checked in at 08:00, evaluated at 18:05 with a ceiling of ten hours:
    checked out at 18:00, flagged, 600 working minutes. *)
Lemma applyAutoCheckoutIfDue_due :
  let r := applyAutoCheckoutIfDue 600 open_record 1085 in
  check_out_time r = Some 1080 /\ is_auto_checkout r = true
  /\ working_minutes r = 600
  /\ applyAutoCheckoutIfDue 600 open_record 1079 = open_record.
Proof. repeat split. Qed.

(** C4.  On a record whose [check_out_time] is set, by whatever path,
    [applyAutoCheckoutIfDue] changes nothing at any [now], and applying
    it again yields the same record as applying it once. *)
Theorem applyAutoCheckoutIfDue_completed (ceiling : Z)
    (record : AttendanceRecord) (t now now' : Z) :
  check_out_time record = Some t ->
  applyAutoCheckoutIfDue ceiling record now = record
  /\ applyAutoCheckoutIfDue ceiling
       (applyAutoCheckoutIfDue ceiling record now) now'
     = applyAutoCheckoutIfDue ceiling record now.
Proof.
  intros H.
  assert (E : forall n, applyAutoCheckoutIfDue ceiling record n = record).
  { intros n. unfold applyAutoCheckoutIfDue. now rewrite H. }
  split; [apply E | now rewrite !E].
Qed.

Lemma applyAutoCheckoutIfDue_completed_witness :
  check_out_time closed_record = Some 1050
  /\ applyAutoCheckoutIfDue 600 closed_record 1200 = closed_record
  /\ applyAutoCheckoutIfDue 600
       (applyAutoCheckoutIfDue 600 closed_record 1200) 1300
     = applyAutoCheckoutIfDue 600 closed_record 1200.
Proof.
  split; [reflexivity |].
  apply (applyAutoCheckoutIfDue_completed 600 closed_record 1050 1200 1300).
  reflexivity.
Defined.

(** ** Report generation *)

Lemma render_report (w : World) :
  reportData (cells (render w)) = reportData (cells w)
  /\ lastGenerated (cells (render w)) = lastGenerated (cells w)
  /\ error (cells (render w)) = error (cells w).
Proof.
  unfold render, refresh_cleanup, refresh_effect, startAutoRefresh,
    stopAutoRefresh.
  open_world w; cbn; case_ifs; cbn; repeat split.
Qed.

Lemma generateReport_keeps_report (v : State) (quiet : bool) (c : Caller)
    (w : World) :
  let w' := generateReport v quiet c w in
  reportData (cells w') = reportData (cells w)
  /\ lastGenerated (cells w') = lastGenerated (cells w).
Proof.
  destruct c as [| cv]; open_world w; unfold generateReport; cbn;
    case_ifs; cbn; split; reflexivity.
Qed.

Lemma generateReport_rejected (quiet : bool) (c : Caller) (message : string)
    (now : JS.Date) (w : World) :
  let w' := generateReport_resume quiet c (Rejected message) now w in
  reportData (cells w') = reportData (cells w)
  /\ lastGenerated (cells w') = lastGenerated (cells w)
  /\ error (cells w')
     = if mounted w then JS.or_else message "Failed to generate report"
       else error (cells w).
Proof.
  destruct c as [| cv]; open_world w; cbn; case_ifs; cbn;
    repeat split; reflexivity.
Qed.




(** C8, as stated, fails: with the range 2026-03-09 .. 2026-02-07, whose
    start lies after its end, the summary call is issued with these very
    bounds, and once it resolves its result is stored and displayed as
    the report, with no error. *)
Lemma inverted_range_report :
  let w1 := step inverted_selected Click_generate in
  let w2 := step w1 (Settle 0 (Resolved sample_report) noon) in
  String.ltb (dateTo (filters (view inverted_selected)))
             (dateFrom (filters (view inverted_selected))) = true
  /\ pending_requests w1
     = [generateAttendanceSummary "2026-03-09" "2026-02-07" ""]
  /\ error (cells w1) = ""
  /\ reportData (cells w2) = sample_report
  /\ lastGenerated (cells w2) = Some noon
  /\ error (cells w2) = "".
Proof. vm_compute. repeat split. Qed.

(** C8, amended.  Report generation requires both bounds of the range:
    when one is empty, "Please select date range" is displayed and no
    report call is made.  The order of the bounds is not examined: when
    both are present and the filter the report type asks for is there,
    the call is issued with the bounds as given, and the result it
    resolves to is stored as the report. *)
Theorem date_range_required (v : State) (quiet : bool) (c : Caller)
    (w : World) :
  mounted w = true ->
  JS.truthy (reportType v) = true ->
  let w' := generateReport v quiet c w in
  (dateFrom (filters v) = "" \/ dateTo (filters v) = "" ->
   in_flight w' = in_flight w
   /\ error (cells w') = "Please select date range"
   /\ reportData (cells w') = reportData (cells w))
  /\ (dateFrom (filters v) <> "" -> dateTo (filters v) <> "" ->
      forall r, report_call v = Some r -> ~ missing_filter v ->
      request_range r = (dateFrom (filters v), dateTo (filters v))
      /\ pending_requests w' = (pending_requests w ++ [r])%list
      /\ error (cells w') = ""
      /\ forall data now,
           reportData
             (cells (generateReport_resume quiet c (Resolved data) now w'))
           = data).
Proof.
  intros Hlive Htype. unfold missing_filter. open_state v.
  destruct w as [notifier live cs vw ev ts nh fl nc na log].
  cbn in Hlive. subst live. cbn zeta. split.
  - intros Hempty. unfold generateReport. cbn.
    rewrite Htype. cbn.
    assert (E : negb (JS.truthy from) || negb (JS.truthy to) = true).
    { destruct Hempty as [-> | ->]; cbn; [reflexivity | apply orb_true_r]. }
    rewrite E. destruct c as [| cv]; destruct notifier; cbn; repeat split.
  - intros Hfrom Hto r Hcall Hfilter.
    unfold generateReport, report_call in *. cbn in *.
    rewrite Htype. cbn.
    destruct from as [| f0 from']; [congruence |].
    destruct to as [| t0 to']; [congruence |]. cbn.
    destruct (String.eqb rt "attendance-summary") eqn:E1.
    + apply String.eqb_eq in E1. subst rt. cbn.
      injection Hcall as <-. cbn.
      unfold pending_requests. cbn. rewrite map_app. cbn.
      destruct quiet, c, notifier; cbn; repeat split.
    + destruct (String.eqb rt "employee-performance") eqn:E2.
      * apply String.eqb_eq in E2. subst rt. cbn.
        destruct emp as [| e0 emp'];
          [exfalso; apply Hfilter; left; split; reflexivity |].
        cbn. injection Hcall as <-. cbn.
        unfold pending_requests. cbn. rewrite map_app. cbn.
        destruct quiet, c, notifier; cbn; repeat split.
      * destruct (String.eqb rt "department") eqn:E3; [| discriminate].
        apply String.eqb_eq in E3. subst rt. cbn.
        destruct dept as [| d0 dept'];
          [exfalso; apply Hfilter; right; split; reflexivity |].
        cbn. injection Hcall as <-. cbn.
        unfold pending_requests. cbn. rewrite map_app. cbn.
        destruct quiet, c, notifier; cbn; repeat split.
Qed.

Lemma date_range_required_witness :
  mounted inverted_selected = true
  /\ JS.truthy (reportType (view inverted_selected)) = true
  /\ pending_requests
       (generateReport (view inverted_selected) false Direct inverted_selected)
     = [generateAttendanceSummary "2026-03-09" "2026-02-07" ""].
Proof.
  split; [reflexivity |]. split; [reflexivity |].
  pose proof (date_range_required (view inverted_selected) false Direct
                inverted_selected eq_refl eq_refl) as [_ H].
  refine (proj1 (proj2 (H _ _ (generateAttendanceSummary
                                 "2026-03-09" "2026-02-07" "")
                          eq_refl _))).
  - vm_compute. discriminate.
  - vm_compute. discriminate.
  - unfold missing_filter. vm_compute. intros [[E _] | [E _]]; discriminate E.
Defined.

(** C10.  A report call that fails leaves the stored report and its
    timestamp as they were: [generateReport] does not touch them before
    the call, nor when the call is rejected, where it only sets the error
    message (the rejection's, or "Failed to generate report"); the same
    holds for the whole turn of the event loop in which the call fails. *)
Theorem failed_report_keeps_last_report :
  (forall v quiet c w,
     let w' := generateReport v quiet c w in
     reportData (cells w') = reportData (cells w)
     /\ lastGenerated (cells w') = lastGenerated (cells w))
  /\ (forall quiet c message now w,
        let w' := generateReport_resume quiet c (Rejected message) now w in
        reportData (cells w') = reportData (cells w)
        /\ lastGenerated (cells w') = lastGenerated (cells w)
        /\ error (cells w')
           = if mounted w then JS.or_else message "Failed to generate report"
             else error (cells w))
  /\ (forall w id message now,
        let w' := step w (Settle id (Rejected message) now) in
        reportData (cells w') = reportData (cells w)
        /\ lastGenerated (cells w') = lastGenerated (cells w)).
Proof.
  split; [exact generateReport_keeps_report |].
  split; [exact generateReport_rejected |].
  intros w id message now. cbn zeta. unfold step.
  destruct (render_report (handle_event (Settle id (Rejected message) now) w))
    as (-> & -> & _).
  unfold handle_event. destruct (find_call id w) as [c |]; [| split; reflexivity].
  pose proof (generateReport_rejected (silent c) (caller c) message now
                (remove_call id w)) as (Hd & Hl & _).
  cbn zeta in Hd, Hl. rewrite Hd, Hl. split; reflexivity.
Qed.

(** ** Export *)

Lemma year_field (y : Z) : 0 <= y <= 9999 -> field_ok 4 y = true.
Proof.
  intros H. apply (all_below_spec (field_ok 4) (Z.to_nat 10000)).
  - vm_compute. reflexivity.
  - rewrite Z2Nat.id; lia.
Qed.

Lemma two_digit_field (n : Z) : 0 <= n <= 99 -> field_ok 2 n = true.
Proof.
  intros H. apply (all_below_spec (field_ok 2) (Z.to_nat 100)).
  - vm_compute. reflexivity.
  - rewrite Z2Nat.id; lia.
Qed.

Lemma isoDate_shape (d : JS.Date) :
  JS.valid d ->
  lacks "T" (isoDate d) = true /\ String.length (isoDate d) = 10%nat.
Proof.
  intros (Hy & Hm & Hd & _).
  pose proof (year_field (JS.year d) Hy) as Y.
  pose proof (two_digit_field (JS.month d) ltac:(lia)) as M.
  pose proof (two_digit_field (JS.day d) ltac:(lia)) as D.
  unfold field_ok in *.
  apply andb_true_iff in Y as [Y1 Y2], M as [M1 M2], D as [D1 D2].
  apply Nat.eqb_eq in Y2, M2, D2.
  unfold isoDate. split.
  - rewrite !lacks_app, Y1, M1, D1. reflexivity.
  - rewrite !length_app, Y2, M2, D2. reflexivity.
Qed.

(** [new Date().toISOString().split('T')[0]] is the date part. *)
Lemma toISOString_date (d : JS.Date) :
  JS.valid d -> JS.split_head "T" (JS.toISOString d) = isoDate d.
Proof.
  intros Hv. pose proof (isoDate_shape d Hv) as [Hl _].
  destruct Hv as (Hy & _).
  assert (E : JS.toISOString d
              = isoDate d
                ++ String "T"
                     (JS.pad 2 (JS.hours d) ++ ":" ++ JS.pad 2 (JS.minutes d)
                      ++ ":" ++ JS.pad 2 (JS.seconds d) ++ "."
                      ++ JS.pad 3 (JS.milliseconds d) ++ "Z")).
  { unfold JS.toISOString, isoDate.
    replace (0 <=? JS.year d) with true by (symmetry; apply Z.leb_le; lia).
    replace (JS.year d <=? 9999) with true by (symmetry; apply Z.leb_le; lia).
    cbn [andb]. rewrite !append_assoc. reflexivity. }
  rewrite E. now apply split_head_app.
Qed.

(** C9.  With a report present, [exportReport] offers for download the
    text [JSON.stringify] makes of the report, under the name
    [{reportType}-report-{date}.json], where [date] is the ten-character
    [YYYY-MM-DD] of the current (UTC) day; with no report it offers no
    file and at most warns "No report data to export". *)
Theorem exportReport_file (JSON_stringify : json -> string) (notifier : bool)
    (v : State) (now : JS.Date) :
  JS.valid now ->
  let filename := reportType v ++ "-report-" ++ isoDate now ++ ".json" in
  String.length (isoDate now) = 10%nat
  /\ (json_truthy (reportData v) = true ->
      exportReport JSON_stringify notifier v now
      = mkExport (Some (filename, JSON_stringify (reportData v)))
                 (if notifier
                  then Some ("Report exported as " ++ filename, "success")
                  else None))
  /\ (json_truthy (reportData v) = false ->
      exportReport JSON_stringify notifier v now
      = mkExport None
                 (if notifier
                  then Some ("No report data to export", "warning")
                  else None)).
Proof.
  intros Hv filename. split; [| split].
  - apply (isoDate_shape now Hv).
  - intros Ht. unfold exportReport. rewrite Ht. cbn [negb].
    rewrite (toISOString_date now Hv). reflexivity.
  - intros Hf. unfold exportReport. rewrite Hf. reflexivity.
Qed.

Lemma exportReport_file_witness :
  JS.valid noon
  /\ isoDate noon = "2026-03-09"
  /\ exportReport (fun _ => "{}") true (view refreshing) noon
     = mkExport
         (Some ("attendance-summary-report-2026-03-09.json", "{}"))
         (Some ("Report exported as attendance-summary-report-2026-03-09.json",
                "success")).
Proof.
  assert (Hv : JS.valid noon) by (unfold JS.valid; cbn; lia).
  split; [exact Hv |]. split; [reflexivity |].
  exact (proj1 (proj2 (exportReport_file (fun _ => "{}") true (view refreshing)
                                         noon Hv))
               eq_refl).
Defined.

(** ** The refresh controller *)

Lemma refreshing_state :
  retryCount (cells refreshing) = 0
  /\ refreshSettings (cells refreshing) = mkSettings 60 true true 3
  /\ active_timers refreshing
     = [(1%positive, CountdownTick); (2%positive, RefreshTick)]
  /\ refreshInterval (cells refreshing) = Some 2%positive
  /\ countdownInterval (cells refreshing) = Some 1%positive
  /\ pending_requests refreshing = []
  /\ isRefreshing (cells refreshing) = false.
Proof. vm_compute. repeat split. Qed.

(** A scheduled refresh that succeeds resets the counter; the new report
    restarts both intervals. *)
Lemma successful_refresh :
  let w := run refreshing
               [Fire 2%positive; Settle 1 (Resolved sample_report) noon] in
  retryCount (cells w) = 0
  /\ isRefreshing (cells w) = false
  /\ active_timers w = [(3%positive, CountdownTick); (4%positive, RefreshTick)].
Proof. vm_compute. repeat split. Qed.

(** Whatever the render [v] and the world, the rejection of a report call
    awaited by [performAutoRefresh] ends in the success branch: the
    counter is set to 0, the settings and the intervals stay. *)
Lemma rejected_refresh_resets_retryCount (v : State) (message : string)
    (now : JS.Date) (w : World) :
  let w' := generateReport_resume true (AutoRefresh v) (Rejected message)
                                  now w in
  retryCount (cells w') = (if mounted w then 0 else retryCount (cells w))
  /\ refreshSettings (cells w') = refreshSettings (cells w)
  /\ timers w' = timers w.
Proof. open_world w; cbn; repeat split. Qed.

(** The pause test of [performAutoRefresh] reads the counter of the
    render that created the callback, not the cell. *)
Lemma pause_test_reads_render (v : State) (message : string) (w : World) :
  retryCount v < maxRetries (refreshSettings v) ->
  refreshSettings (cells (performAutoRefresh_settled v (RejectedWith message) w))
  = refreshSettings (cells w).
Proof.
  intros H. unfold performAutoRefresh_settled.
  replace (maxRetries (refreshSettings v) <=? retryCount v) with false
    by (symmetry; apply Z.leb_gt; exact H).
  rewrite andb_false_r. open_world w; reflexivity.
Qed.

Lemma refreshing_stalled : refreshing = stalled 1 (notifications refreshing) "".
Proof. vm_compute. reflexivity. Qed.

Lemma stalled_tick (next : nat) (log : list (string * string)) (err : string) :
  step (stalled next log err) (Fire 2%positive)
  = let s := cells (setIsRefreshing true (setError "" refreshing)) in
    mkWorld true true s s (effect_view refreshing) (timers refreshing)
            3%positive
            [mkCall next summary_request true
                    (AutoRefresh (effect_view refreshing))]
            (S next) 2%nat log.
Proof. vm_compute. reflexivity. Qed.

Lemma stalled_round (next : nat) (log : list (string * string))
    (err m : string) :
  run (stalled next log err) [Fire 2%positive; Settle next (Rejected m) noon]
  = stalled (S next)
            (log ++ [(JS.or_else m "Failed to generate report", "error")])%list
            (JS.or_else m "Failed to generate report").
Proof.
  unfold run, fold_left. rewrite stalled_tick. cbn zeta.
  unfold step, handle_event, find_call, remove_call.
  cbn [in_flight find filter call_id]. rewrite Nat.eqb_refl.
  cbn [negb silent caller].
  destruct m; vm_compute; reflexivity.
Qed.

Section Rounds.

(** A family of worlds closed under one failed scheduled refresh. *)
Variable W : nat -> list (string * string) -> string -> World.
Hypothesis W_round : forall next log err m,
  run (W next log err) [Fire 2%positive; Settle next (Rejected m) noon]
  = W (S next)
      (log ++ [(JS.or_else m "Failed to generate report", "error")])%list
      (JS.or_else m "Failed to generate report").

Lemma rounds_stay_in_family (messages : list string) :
  forall next log err,
  exists log' err',
    run (W next log err) (failing_refreshes next messages)
    = W (next + List.length messages) log' err'
    /\ filter is_warning log' = filter is_warning log.
Proof.
  induction messages as [| m rest IH]; intros next log err.
  - exists log, err. split; [| reflexivity].
    rewrite Nat.add_0_r. reflexivity.
  - destruct (IH (S next)
                 (log ++ [(JS.or_else m "Failed to generate report",
                           "error")])%list
                 (JS.or_else m "Failed to generate report"))
      as (log' & err' & Hrun & Hlog).
    exists log', err'. split.
    + rewrite <- (W_round next log err m) in Hrun.
      replace (next + List.length (m :: rest))%nat
        with (S next + List.length rest)%nat by (cbn [List.length]; lia).
      rewrite <- Hrun. reflexivity.
    + rewrite Hlog, filter_app. cbn. apply app_nil_r.
Qed.

End Rounds.

(** *** What disabling and removing clear, and what a tick issues *)

Lemma setState_timers (f : State -> State) (w : World) :
  timers (setState f w) = timers w.
Proof. unfold setState. destruct (mounted w); reflexivity. Qed.

Lemma filter_filter {A : Type} (p q : A -> bool) (l : list A) :
  filter p (filter q l) = filter (fun x => q x && p x) l.
Proof.
  induction l as [| x l IH]; cbn; [reflexivity |].
  destruct (q x); cbn; [destruct (p x) |]; now rewrite IH.
Qed.

(** [stopAutoRefresh] of the render [v] clears the intervals whose handles
    [v] holds, and no other. *)
Lemma stopAutoRefresh_timers (v : State) (w : World) :
  timers (stopAutoRefresh v w)
  = filter (fun t => negb (held_by v (handle t))) (timers w).
Proof.
  unfold stopAutoRefresh, held_by, setRefreshCountdown, setCountdownInterval,
    setRefreshInterval.
  destruct (refreshInterval v) as [r |], (countdownInterval v) as [c |];
    rewrite ?setState_timers; cbn [timers clearInterval with_timers];
    rewrite ?setState_timers; cbn [timers clearInterval with_timers].
  - rewrite filter_filter. apply filter_ext. intros t.
    now rewrite negb_orb.
  - apply filter_ext. intros t. now rewrite orb_false_r.
  - reflexivity.
  - cbn. induction (timers w) as [| t ts IH]; cbn;
      [reflexivity | now rewrite <- IH].
Qed.

Lemma filter_none {A : Type} (p : A -> bool) (l : list A) :
  (forall x, In x l -> p x = false) -> filter p l = [].
Proof.
  induction l as [| x l IH]; cbn; intros H; [reflexivity |].
  rewrite (H x (or_introl eq_refl)). apply IH. intros y Hy. apply H. now right.
Qed.

Lemma step_toggle (w : World) :
  mounted w = true ->
  json_truthy (reportData (view w)) = true ->
  step w Change_autoRefresh = render (toggleAutoRefresh (view w) w).
Proof.
  intros Hlive Hdata. unfold step, handle_event. now rewrite Hlive, Hdata.
Qed.

(** Unticking the checkbox while auto-refresh is on: the effect runs
    [stopAutoRefresh] of the new render, which holds the current handles,
    so no interval is left. *)
Lemma manual_disable_clears_all (w : World) :
  mounted w = true ->
  view w = cells w ->
  enabled (refreshSettings (cells w)) = true ->
  enabled (refreshSettings (effect_view w)) = true ->
  json_truthy (reportData (cells w)) = true ->
  (forall t, In t (timers w) -> held_by (cells w) (handle t) = true) ->
  let w' := step w Change_autoRefresh in
  timers w' = []
  /\ refreshInterval (cells w') = None
  /\ countdownInterval (cells w') = None
  /\ enabled (refreshSettings (cells w')) = false.
Proof.
  intros Hlive Hview Hon Heff Hdata Hheld. cbn zeta.
  rewrite step_toggle by (rewrite ?Hview; assumption).
  rewrite Hview.
  destruct w as [notifier live cs vw ev ts nh fl nc na log].
  cbn in Hlive, Hview, Hon, Heff, Hdata, Hheld. subst live vw.
  destruct cs as [rt fs rd ra ld er lg ri rc ci ir [iv en pe mr] rn].
  destruct ev as [rt' fs' rd' ra' ld' er' lg' ri' rc' ci' ir' [iv' en' pe' mr'] rn'].
  cbn in Hon, Heff. subst en en'.
  unfold render, toggleAutoRefresh, refresh_cleanup, refresh_effect.
  cbn [mounted cells effect_view setRefreshSettings setState with_cells notify
       onNotification].
  assert (Ht : forall (w0 : World),
             timers w0 = ts ->
             timers (stopAutoRefresh
                       (mkState rt fs rd ra ld er lg ri rc ci ir
                                (mkSettings iv false pe mr) rn)
                       (stopAutoRefresh
                          (mkState rt' fs' rd' ra' ld' er' lg' ri' rc' ci' ir'
                                   (mkSettings iv' true pe' mr') rn') w0))
             = []).
  { intros w0 E. rewrite !stopAutoRefresh_timers, E, filter_filter.
    apply filter_none. intros t Hin. specialize (Hheld t Hin).
    unfold held_by in *. cbn in *. rewrite Hheld. cbn. apply andb_false_r. }
  destruct notifier; cbn; (split; [apply Ht; reflexivity |]);
    destruct ri, ci, ri', ci'; cbn; repeat split.
Qed.

(** Removing the component clears the intervals whose handles were held
    by the render that last ran the effect. *)
Lemma unmount_timers (w : World) :
  mounted w = true ->
  timers (step w Unmount)
  = filter (fun t => negb (held_by (effect_view w) (handle t))) (timers w).
Proof.
  intros Hlive. unfold step, handle_event. rewrite Hlive.
  unfold unmount, render, refresh_cleanup. cbn [mounted timers].
  apply stopAutoRefresh_timers.
Qed.

(** Whenever a render starts auto-refresh, the two intervals it registers
    are out of reach of its own cleanup: removing the component right
    after leaves both registered. *)
Lemma started_timers_survive_unmount (w : World) :
  mounted w = true ->
  enabled (refreshSettings (cells w)) = true ->
  json_truthy (reportData (cells w)) = true ->
  JS.truthy (reportType (cells w)) = true ->
  deps_changed (effect_view w) (cells w) = true ->
  (forall t, In t (timers w) -> held_by (cells w) (handle t) = true) ->
  (forall h, held_by (cells w) h = true -> (h < next_handle w)%positive) ->
  let started := render w in
  timers started
  = [mkTimer (next_handle w) CountdownTick (cells w) 1000;
     mkTimer (Pos.succ (next_handle w)) RefreshTick (cells w)
             (interval (refreshSettings (cells w)) * 1000)]
  /\ timers (step started Unmount) = timers started.
Proof.
  intros Hlive Hon Hdata Htype Hdeps Hheld Hfresh. cbn zeta.
  assert (Hstart : timers (render w)
                   = [mkTimer (next_handle w) CountdownTick (cells w) 1000;
                      mkTimer (Pos.succ (next_handle w)) RefreshTick (cells w)
                              (interval (refreshSettings (cells w)) * 1000)]
                   /\ effect_view (render w) = cells w
                   /\ mounted (render w) = true).
  { unfold render. rewrite Hlive, Hdeps.
    unfold refresh_effect. rewrite Hon, Hdata, Htype. cbn [andb].
    unfold refresh_cleanup, startAutoRefresh.
    set (w1 := stopAutoRefresh (cells w) (stopAutoRefresh (effect_view w) w)).
    assert (Ht1 : timers w1 = []).
    { unfold w1. rewrite !stopAutoRefresh_timers, filter_filter.
      apply filter_none. intros t Hin. rewrite (Hheld t Hin). cbn.
      apply andb_false_r. }
    assert (Hn1 : next_handle w1 = next_handle w /\ mounted w1 = true).
    { unfold w1, stopAutoRefresh.
      destruct (refreshInterval (cells w)), (countdownInterval (cells w)),
        (refreshInterval (effect_view w)), (countdownInterval (effect_view w));
        destruct w as [notifier live cs vw ev ts nh fl nc na log];
        cbn in Hlive; subst live; cbn; split; reflexivity. }
    destruct Hn1 as [Hn1 Hm1].
    destruct w1 as [notifier1 live1 cs1 vw1 ev1 ts1 nh1 fl1 nc1 na1 log1].
    cbn in Ht1, Hn1, Hm1. subst ts1 nh1 live1. cbn. repeat split. }
  destruct Hstart as (Hts & Hev & Hm).
  split; [exact Hts |].
  rewrite (unmount_timers _ Hm), Hev, Hts. cbn [filter handle].
  assert (Hnew : forall h, (next_handle w <= h)%positive ->
                           held_by (cells w) h = false).
  { intros h Hle. destruct (held_by (cells w) h) eqn:E; [| reflexivity].
    apply Hfresh in E. lia. }
  rewrite (Hnew (next_handle w)) by lia.
  rewrite (Hnew (Pos.succ (next_handle w))) by lia.
  reflexivity.
Qed.

Lemma render_in_flight (w : World) : in_flight (render w) = in_flight w.
Proof.
  unfold render, refresh_cleanup, refresh_effect, startAutoRefresh,
    stopAutoRefresh.
  open_world w; cbn; case_ifs; cbn; reflexivity.
Qed.

Lemma generateReport_issues_call (v : State) (quiet : bool) (c : Caller)
    (w : World) (r : Request) :
  dateFrom (filters v) <> "" -> dateTo (filters v) <> "" ->
  ~ missing_filter v ->
  report_call v = Some r ->
  in_flight (generateReport v quiet c w)
  = (in_flight w ++ [mkCall (next_call w) r quiet c])%list.
Proof.
  intros Hfrom Hto Hfilter Hcall. unfold missing_filter in Hfilter.
  open_state v. unfold generateReport, report_call in *. cbn in *.
  destruct from as [| f0 from']; [congruence |].
  destruct to as [| t0 to']; [congruence |]. cbn.
  destruct (String.eqb rt "attendance-summary") eqn:E1.
  - apply String.eqb_eq in E1. subst rt. cbn. injection Hcall as <-.
    open_world w; destruct quiet; reflexivity.
  - destruct (String.eqb rt "employee-performance") eqn:E2.
    + apply String.eqb_eq in E2. subst rt. cbn.
      destruct emp as [| e0 emp'];
        [exfalso; apply Hfilter; left; split; reflexivity |].
      cbn. injection Hcall as <-. open_world w; destruct quiet; reflexivity.
    + destruct (String.eqb rt "department") eqn:E3; [| discriminate].
      apply String.eqb_eq in E3. subst rt. cbn.
      destruct dept as [| d0 dept'];
        [exfalso; apply Hfilter; right; split; reflexivity |].
      cbn. injection Hcall as <-. open_world w; destruct quiet; reflexivity.
Qed.

Lemma setState_in_flight (f : State -> State) (w : World) :
  in_flight (setState f w) = in_flight w /\ next_call (setState f w) = next_call w.
Proof. unfold setState. destruct (mounted w); split; reflexivity. Qed.

(** The guard of the refresh trigger looks at the render that created the
    callback: whatever the cells and the pending calls are by then, a
    trigger created while no refresh ran issues its report call. *)
Lemma refresh_tick_ignores_in_flight (w : World) (h : TimerId) (t : Timer)
    (r : Request) :
  find_timer h w = Some t ->
  callback t = RefreshTick ->
  isRefreshing (captured t) = false ->
  dateFrom (filters (captured t)) <> "" ->
  dateTo (filters (captured t)) <> "" ->
  ~ missing_filter (captured t) ->
  report_call (captured t) = Some r ->
  pending_requests (step w (Fire h)) = (pending_requests w ++ [r])%list.
Proof.
  intros Hfind Hcb Hidle Hfrom Hto Hfilter Hcall.
  unfold pending_requests, step. rewrite render_in_flight.
  unfold handle_event. rewrite Hfind. unfold run_callback.
  rewrite Hcb, Hidle. cbn [negb]. unfold performAutoRefresh.
  rewrite (generateReport_issues_call _ _ _ _ r Hfrom Hto Hfilter Hcall).
  unfold setIsRefreshing. rewrite (proj1 (setState_in_flight _ w)).
  rewrite map_app. reflexivity.
Qed.

(** C1 on the code.  Auto-refresh is on with [pauseOnError] set,
    [maxRetries = 3] and a retry count of 0.  However many scheduled
    refreshes fail in a row, with whatever messages, the retry count is 0
    afterwards, auto-refresh is still enabled with both intervals
    running, no pause warning was notified, and the next tick issues the
    report call once more. *)
Theorem retries_never_exhausted (messages : list string) :
  let w := run refreshing (failing_refreshes 1 messages) in
  retryCount (cells w) = 0
  /\ enabled (refreshSettings (cells w)) = true
  /\ active_timers w = [(1%positive, CountdownTick); (2%positive, RefreshTick)]
  /\ filter is_warning (notifications w) = []
  /\ pending_requests (step w (Fire 2%positive)) = [summary_request].
Proof.
  cbn zeta. rewrite refreshing_stalled.
  destruct (rounds_stay_in_family stalled stalled_round messages 1%nat
              (notifications refreshing) "")
    as (log' & err' & Hrun & Hlog).
  rewrite Hrun. rewrite stalled_tick.
  assert (Hnone : filter is_warning (notifications refreshing) = [])
    by (vm_compute; reflexivity).
  rewrite Hnone in Hlog.
  repeat split. exact Hlog.
Qed.

(** Five failures in a row, two more than [maxRetries]. *)
Lemma five_failed_refreshes :
  let w := run refreshing
               (failing_refreshes 1 ["Network Error"; "Network Error";
                                     "Network Error"; "Network Error";
                                     "Network Error"]) in
  retryCount (cells w) = 0
  /\ refreshSettings (cells w) = mkSettings 60 true true 3
  /\ error (cells w) = "Network Error"
  /\ notifications w
     = [("Report generated successfully", "success");
        ("Auto-refresh enabled", "info");
        ("Network Error", "error"); ("Network Error", "error");
        ("Network Error", "error"); ("Network Error", "error");
        ("Network Error", "error")].
Proof. vm_compute. repeat split. Qed.

(** A tick of the trigger while a report requested by hand is pending
    also issues its call: [isRefreshing] is set by [performAutoRefresh]
    only. *)
Lemma tick_during_manual_refresh :
  let w1 := step refreshing Click_generate in
  let w2 := step w1 (Fire 2%positive) in
  pending_requests w1 = [summary_request]
  /\ isRefreshing (cells w1) = false
  /\ pending_requests w2 = [summary_request; summary_request].
Proof. vm_compute. repeat split. Qed.

(** C6 on the code.  The refresh trigger (interval 4, every 30 seconds)
    fires, and its report call is pending with [isRefreshing] set; the
    trigger, whose callback still sees [isRefreshing] as false, fires
    again before the call has settled, and a second report call is issued
    beside the first. *)
Theorem overlapping_refresh :
  let w1 := step refreshing_every_30 (Fire 4%positive) in
  let w2 := step w1 (Fire 4%positive) in
  active_timers refreshing_every_30
  = [(3%positive, CountdownTick); (4%positive, RefreshTick)]
  /\ pending_requests w1 = [summary_request]
  /\ isRefreshing (cells w1) = true
  /\ isRefreshing (view w1) = true
  /\ option_map (fun t => isRefreshing (captured t)) (find_timer 4%positive w1)
     = Some false
  /\ pending_requests w2 = [summary_request; summary_request].
Proof. vm_compute. repeat split. Qed.

(** Switching auto-refresh off by hand clears both intervals. *)
Lemma manual_disable_clears_timers :
  let w := step refreshing Change_autoRefresh in
  enabled (refreshSettings (cells w)) = false
  /\ active_timers w = []
  /\ refreshInterval (cells w) = None
  /\ countdownInterval (cells w) = None.
Proof. vm_compute. repeat split. Qed.

(** C7 on the code.  The component is removed while auto-refresh is on:
    the cleanup that runs is the one of the render that started the
    intervals, in which both handles were still [null]; the countdown and
    the refresh trigger stay registered, and the trigger goes on issuing
    report calls. *)
Theorem unmount_leaves_timers :
  let w := step refreshing Unmount in
  mounted w = false
  /\ refreshInterval (effect_view refreshing) = None
  /\ countdownInterval (effect_view refreshing) = None
  /\ active_timers w = [(1%positive, CountdownTick); (2%positive, RefreshTick)]
  /\ pending_requests (step w (Fire 2%positive)) = [summary_request].
Proof. vm_compute. repeat split. Qed.

(** * Further properties of the code *)

(** ** The refresh controller while mounted *)

Lemma Object_is_refl (a : nat * json) : Object_is a a = true.
Proof.
  destruct a as [n [| b | x | s | l | l]]; cbn.
  - reflexivity.
  - apply Bool.eqb_reflx.
  - apply Leibniz.eqb_spec. reflexivity.
  - apply String.eqb_refl.
  - apply Nat.eqb_refl.
  - apply Nat.eqb_refl.
Qed.

Lemma Object_is_truthy (a b : nat * json) :
  Object_is a b = true -> json_truthy (snd a) = json_truthy (snd b).
Proof.
  destruct a as [n [| x | x | x | x | x]], b as [m [| y | y | y | y | y]];
    cbn; try discriminate; try reflexivity.
  - intros H. apply Bool.eqb_prop in H. now subst.
  - intros H. apply Leibniz.eqb_spec in H. now subst.
  - intros H. apply String.eqb_eq in H. now subst.
Qed.

Lemma deps_unchanged (old new : State) :
  deps_changed old new = false ->
  refresh_wanted old = refresh_wanted new
  /\ interval (refreshSettings old) = interval (refreshSettings new).
Proof.
  unfold deps_changed, refresh_wanted. intros H.
  apply negb_false_iff in H.
  apply andb_true_iff in H as [H Hi]. apply andb_true_iff in H as [H Ht].
  apply andb_true_iff in H as [He Hd].
  apply Bool.eqb_prop in He. apply String.eqb_eq in Ht. apply Z.eqb_eq in Hi.
  apply Object_is_truthy in Hd. cbn in Hd.
  rewrite He, Hd, Ht. split; [reflexivity | exact Hi].
Qed.

(** What the handlers leave alone. *)
Lemma handle_event_frame (e : Event) (w : World) :
  e <> Unmount ->
  let w' := handle_event e w in
  mounted w' = mounted w
  /\ view w' = view w
  /\ effect_view w' = effect_view w
  /\ timers w' = timers w
  /\ next_handle w' = next_handle w
  /\ countdownInterval (cells w') = countdownInterval (cells w)
  /\ refreshInterval (cells w') = refreshInterval (cells w).
Proof.
  intros He. destruct e; try congruence; cbn zeta; unfold handle_event.
  - open_world w; cbn; case_ifs; cbn; repeat split.
  - open_world w; cbn; case_ifs; cbn; repeat split.
  - open_world w; cbn; case_ifs; cbn; repeat split.
  - open_world w; cbn; case_ifs; cbn; repeat split.
  - open_world w; cbn; case_ifs; cbn; repeat split.
  - open_world w; unfold generateReport; cbn; case_ifs; cbn; repeat split.
  - open_world w; cbn; case_ifs; cbn; repeat split.
  - open_world w; cbn; case_ifs; cbn; repeat split.
  - destruct (find_timer h w) as [t |]; [| repeat split].
    unfold run_callback, performAutoRefresh, generateReport.
    destruct (callback t); open_world w; cbn; case_ifs; cbn; repeat split.
  - destruct (find_call id w) as [c |]; [| repeat split].
    destruct c as [cid rq quiet [| cv]]; destruct r;
      open_world w; cbn; case_ifs; cbn; repeat split.
Qed.

Lemma deps_changed_same (a b : State) :
  deps_of a = deps_of b -> deps_changed a b = false.
Proof.
  unfold deps_of, deps_changed. intros H. injection H as He Ha Hd Ht Hi.
  rewrite He, Ha, Hd, Ht, Hi.
  rewrite Bool.eqb_reflx, Object_is_refl, String.eqb_refl, Z.eqb_refl.
  reflexivity.
Qed.

Lemma stopAutoRefresh_frame (v : State) (w : World) :
  let w' := stopAutoRefresh v w in
  mounted w' = mounted w
  /\ next_handle w' = next_handle w
  /\ effect_view w' = effect_view w
  /\ deps_of (cells w') = deps_of (cells w)
  /\ (mounted w = true ->
      refreshInterval (cells w')
      = match refreshInterval v with
        | Some _ => None
        | None => refreshInterval (cells w)
        end
      /\ countdownInterval (cells w')
         = match countdownInterval v with
           | Some _ => None
           | None => countdownInterval (cells w)
           end
      /\ refreshCountdown (cells w') = 0).
Proof.
  cbn zeta. unfold stopAutoRefresh.
  destruct (refreshInterval v), (countdownInterval v); open_world w; cbn;
    repeat split; intros; try discriminate.
Qed.

Lemma startAutoRefresh_frame (v : State) (w : World) :
  let w' := startAutoRefresh v w in
  mounted w' = mounted w
  /\ effect_view w' = effect_view w
  /\ deps_of (cells w') = deps_of (cells w)
  /\ timers w'
     = (filter (fun t => negb (held_by v (handle t))) (timers w)
        ++ [mkTimer (next_handle w) CountdownTick v 1000;
            mkTimer (Pos.succ (next_handle w)) RefreshTick v
                    (interval (refreshSettings v) * 1000)])%list
  /\ (mounted w = true ->
      countdownInterval (cells w') = Some (next_handle w)
      /\ refreshInterval (cells w') = Some (Pos.succ (next_handle w))
      /\ refreshCountdown (cells w') = interval (refreshSettings v)).
Proof.
  cbn zeta. unfold startAutoRefresh.
  pose proof (stopAutoRefresh_frame v w) as (Hm & Hn & He & Hd & _).
  pose proof (stopAutoRefresh_timers v w) as Ht.
  cbn zeta in *.
  destruct (stopAutoRefresh v w) as [notifier live cs vw ev ts nh fl nc na log].
  cbn in Hm, Hn, He, Hd, Ht. subst live nh ev ts. rewrite <- Hd.
  destruct (mounted w); cbn; repeat split; intros; try discriminate.
  all: rewrite <- List.app_assoc; reflexivity.
Qed.

Lemma settled_timers_held (w : World) :
  timers_settled w ->
  forall t, In t (timers w) -> held_by (cells w) (handle t) = true.
Proof.
  unfold timers_settled, held_by. intros H t Hin.
  destruct (refresh_wanted (effect_view w)).
  - destruct H as (c & r & Ht & Hc & Hr). rewrite Ht in Hin. rewrite Hc, Hr.
    destruct Hin as [<- | [<- | []]]; cbn.
    + rewrite Pos.eqb_refl. apply orb_true_r.
    + rewrite Pos.eqb_refl. reflexivity.
  - destruct H as (Ht & _). rewrite Ht in Hin. destruct Hin.
Qed.

Lemma render_tidy (w : World) :
  mounted w = true -> timers_settled w -> tidy (render w).
Proof.
  intros Hlive Hset. unfold render. rewrite Hlive.
  destruct (deps_changed (effect_view w) (cells w)) eqn:Hdeps.
  - (* the effect runs again *)
    pose proof (settled_timers_held w Hset) as Hheld.
    unfold refresh_cleanup.
    pose proof (stopAutoRefresh_frame (effect_view w) w)
      as (Hm1 & Hn1 & He1 & Hd1 & Hc1).
    pose proof (stopAutoRefresh_timers (effect_view w) w) as Ht1.
    cbn zeta in *. specialize (Hc1 Hlive).
    set (w1 := stopAutoRefresh (effect_view w) w) in *.
    rewrite Hlive in Hm1.
    assert (Hclear : filter (fun t => negb (held_by (cells w) (handle t)))
                            (timers w1) = []).
    { rewrite Ht1, filter_filter. apply filter_none. intros t Hin.
      rewrite (Hheld t Hin). apply andb_false_r. }
    unfold refresh_effect. fold (refresh_wanted (cells w)).
    destruct (refresh_wanted (cells w)) eqn:Hwant.
    + pose proof (startAutoRefresh_frame (cells w) w1)
        as (Hm2 & He2 & Hd2 & Ht2 & Hc2).
      cbn zeta in *. specialize (Hc2 Hm1).
      destruct Hc2 as (Hc2 & Hr2 & _).
      rewrite Hclear in Ht2. cbn [app] in Ht2.
      set (w2 := startAutoRefresh (cells w) w1) in *.
      unfold tidy, timers_settled, with_views.
      cbn [mounted view cells effect_view timers].
      rewrite Hwant. repeat split.
      * congruence.
      * apply deps_changed_same. congruence.
      * eexists _, _. repeat split; eassumption.
    + pose proof (stopAutoRefresh_frame (cells w) w1)
        as (Hm2 & Hn2 & He2 & Hd2 & Hc2).
      pose proof (stopAutoRefresh_timers (cells w) w1) as Ht2.
      cbn zeta in *. specialize (Hc2 Hm1).
      destruct Hc2 as (Hr2 & Hc2 & _). destruct Hc1 as (Hr1 & Hc1 & _).
      rewrite Hclear in Ht2.
      set (w2 := stopAutoRefresh (cells w) w1) in *.
      unfold tidy, timers_settled, with_views.
      cbn [mounted view cells effect_view timers].
      rewrite Hwant.
      assert (Hnone : forall a b c : option TimerId,
                 match a with
                 | Some _ => None
                 | None => match b with Some _ => None | None => a end
                 end = (None : option TimerId))
        by (intros [x |] [y |] c; reflexivity).
      repeat split.
      * congruence.
      * apply deps_changed_same. congruence.
      * exact Ht2.
      * rewrite Hc2, Hc1. apply (Hnone _ _ None).
      * rewrite Hr2, Hr1. apply (Hnone _ _ None).
  - (* no dependency changed *)
    destruct (deps_unchanged _ _ Hdeps) as [Hwant Hint].
    unfold tidy, timers_settled, with_views.
    cbn [mounted view cells effect_view timers].
    repeat split; try assumption.
Qed.

Lemma tidy_step (w : World) (e : Event) :
  tidy w -> e <> Unmount -> tidy (step w e).
Proof.
  intros (Hlive & Hview & Hdeps & Hset) He. unfold step.
  pose proof (handle_event_frame e w He) as (Hm & _ & Hev & Ht & _ & Hc & Hr).
  cbn zeta in *. apply render_tidy; [congruence |].
  unfold timers_settled in *. rewrite Hev, Ht, Hc, Hr. exact Hset.
Qed.

Lemma tidy_mount (notifier : bool) (from to : string) :
  tidy (mount notifier from to).
Proof.
  unfold tidy, timers_settled. destruct notifier; cbn; repeat split.
  all: apply deps_changed_same; reflexivity.
Qed.

Lemma tidy_run (es : list Event) :
  forall w, tidy w -> ~ In Unmount es -> tidy (run w es).
Proof.
  induction es as [| e es IH]; intros w Hw Hes; [exact Hw |].
  cbn [run fold_left]. apply IH.
  - apply tidy_step; [exact Hw |]. intros ->. apply Hes. now left.
  - intros Hin. apply Hes. now right.
Qed.

(** X1.  While the component is mounted, whatever happens, the host holds the
    intervals the effect asks for and no other: none unless
    auto-refresh is enabled with a report and a report type, and then
    exactly one countdown ticking every second and one refresh trigger
    of [interval] seconds, whose handles are the ones in the cells. *)
Theorem mounted_timers_settled (notifier : bool) (from to : string)
    (es : list Event) :
  ~ In Unmount es ->
  let w := run (mount notifier from to) es in
  mounted w = true
  /\ view w = cells w
  /\ if refresh_wanted (cells w) then
       exists c r v,
         timers w
         = [mkTimer c CountdownTick v 1000;
            mkTimer r RefreshTick v
                    (interval (refreshSettings (cells w)) * 1000)]
         /\ countdownInterval (cells w) = Some c
         /\ refreshInterval (cells w) = Some r
     else
       timers w = []
       /\ countdownInterval (cells w) = None
       /\ refreshInterval (cells w) = None.
Proof.
  intros Hes. cbn zeta.
  destruct (tidy_run es _ (tidy_mount notifier from to) Hes)
    as (Hlive & Hview & Hdeps & Hset).
  split; [exact Hlive |]. split; [exact Hview |].
  destruct (deps_unchanged _ _ Hdeps) as [Hwant Hint].
  unfold timers_settled in Hset. rewrite <- Hwant, <- Hint.
  destruct (refresh_wanted (effect_view _)).
  - destruct Hset as (c & r & Hset). exists c, r, (effect_view (run (mount notifier from to) es)).
    exact Hset.
  - exact Hset.
Qed.

Lemma mounted_timers_settled_witness :
  let es := [Click_reportType "attendance-summary"; Click_generate;
             Settle 0 (Resolved sample_report) noon; Change_autoRefresh;
             Change_interval 30] in
  let w := run (mount true "2026-02-07" "2026-03-09") es in
  ~ In Unmount es
  /\ mounted w = true
  /\ view w = cells w
  /\ if refresh_wanted (cells w) then
       exists c r v,
         timers w
         = [mkTimer c CountdownTick v 1000;
            mkTimer r RefreshTick v
                    (interval (refreshSettings (cells w)) * 1000)]
         /\ countdownInterval (cells w) = Some c
         /\ refreshInterval (cells w) = Some r
     else
       timers w = []
       /\ countdownInterval (cells w) = None
       /\ refreshInterval (cells w) = None.
Proof.
  cbn zeta.
  assert (Hes : ~ In Unmount
                  [Click_reportType "attendance-summary"; Click_generate;
                   Settle 0 (Resolved sample_report) noon; Change_autoRefresh;
                   Change_interval 30])
    by (cbn; intuition discriminate).
  split; [exact Hes |].
  apply (mounted_timers_settled true "2026-02-07" "2026-03-09" _ Hes).
Defined.

Lemma handle_event_countdown (e : Event) (w : World) :
  e <> Unmount ->
  let w' := handle_event e w in
  (match e with
   | Change_interval n =>
       interval (refreshSettings (cells w')) = n
       \/ interval (refreshSettings (cells w'))
          = interval (refreshSettings (cells w))
   | _ => interval (refreshSettings (cells w'))
          = interval (refreshSettings (cells w))
   end)
  /\ (refreshCountdown (cells w') = refreshCountdown (cells w)
      \/ exists h t,
           e = Fire h /\ find_timer h w = Some t
           /\ callback t = CountdownTick
           /\ refreshCountdown (cells w')
              = if refreshCountdown (cells w) <=? 1
                then interval (refreshSettings (captured t))
                else refreshCountdown (cells w) - 1).
Proof.
  intros He. destruct e; try congruence; cbn zeta; unfold handle_event.
  - open_world w; cbn; case_ifs; cbn; split; auto.
  - open_world w; cbn; case_ifs; cbn; split; auto.
  - open_world w; cbn; case_ifs; cbn; split; auto.
  - open_world w; cbn; case_ifs; cbn; split; auto.
  - open_world w; cbn; case_ifs; cbn; split; auto.
  - open_world w; unfold generateReport; cbn; case_ifs; cbn; split; auto.
  - open_world w; cbn; case_ifs; cbn; split; auto.
  - open_world w; cbn; case_ifs; cbn; split; auto.
  - destruct (find_timer h w) as [t |] eqn:Hfind; [| split; auto].
    unfold run_callback, performAutoRefresh, generateReport.
    destruct (callback t) eqn:Hcb.
    + split.
      * open_world w; reflexivity.
      * destruct (mounted w) eqn:Hlive.
        -- right. exists h, t. repeat split; try assumption.
           open_world w; try discriminate; reflexivity.
        -- left. open_world w; try discriminate; reflexivity.
    + open_world w; cbn; case_ifs; cbn; split; auto.
  - destruct (find_call id w) as [c |]; [| split; auto].
    destruct c as [cid rq quiet [| cv]]; destruct r;
      open_world w; cbn; case_ifs; cbn; split; auto.
Qed.

Lemma render_countdown (w : World) :
  mounted w = true ->
  1 <= interval (refreshSettings (cells w)) ->
  (deps_changed (effect_view w) (cells w) = false ->
   if refresh_wanted (effect_view w)
   then 1 <= refreshCountdown (cells w) <= interval (refreshSettings (cells w))
   else refreshCountdown (cells w) = 0) ->
  countdown_in_range (render w).
Proof.
  intros Hlive Hpos Hkeep. unfold render. rewrite Hlive.
  destruct (deps_changed (effect_view w) (cells w)) eqn:Hdeps.
  - unfold refresh_cleanup.
    pose proof (stopAutoRefresh_frame (effect_view w) w)
      as (Hm1 & _ & _ & Hd1 & _).
    cbn zeta in *. rewrite Hlive in Hm1.
    set (w1 := stopAutoRefresh (effect_view w) w) in *.
    unfold refresh_effect. fold (refresh_wanted (cells w)).
    unfold countdown_in_range, with_views. cbn [cells effect_view].
    destruct (refresh_wanted (cells w)) eqn:Hwant.
    + pose proof (startAutoRefresh_frame (cells w) w1) as (_ & _ & Hd2 & _ & Hc2).
      cbn zeta in *. destruct (Hc2 Hm1) as (_ & _ & Hcount).
      assert (Hi : interval (refreshSettings (cells (startAutoRefresh (cells w) w1)))
                   = interval (refreshSettings (cells w))).
      { unfold deps_of in Hd1, Hd2. congruence. }
      rewrite Hi, Hcount. lia.
    + pose proof (stopAutoRefresh_frame (cells w) w1) as (_ & _ & _ & Hd2 & Hc2).
      cbn zeta in *. destruct (Hc2 Hm1) as (_ & _ & Hcount).
      assert (Hi : interval (refreshSettings (cells (stopAutoRefresh (cells w) w1)))
                   = interval (refreshSettings (cells w))).
      { unfold deps_of in Hd1, Hd2. congruence. }
      rewrite Hi. split; assumption.
  - unfold countdown_in_range, with_views. cbn [cells effect_view].
    split; [exact Hpos | exact (Hkeep eq_refl)].
Qed.

Lemma countdown_step (w : World) (e : Event) :
  tidy w -> countdown_in_range w -> e <> Unmount ->
  (forall n, e = Change_interval n -> 1 <= n) ->
  countdown_in_range (step w e).
Proof.
  intros (Hlive & Hview & Hdeps & Hset) (Hpos & Hcount) He Hn. unfold step.
  pose proof (handle_event_frame e w He) as (Hm & _ & Hev & _).
  pose proof (handle_event_countdown e w He) as (Hint & Hcd).
  cbn zeta in *.
  destruct (deps_unchanged _ _ Hdeps) as [Hwant Hsame].
  apply render_countdown.
  - congruence.
  - destruct e; try (rewrite Hint; exact Hpos).
    destruct Hint as [-> | ->]; [apply (Hn seconds eq_refl) | exact Hpos].
  - intros Hdeps'. rewrite Hev in *.
    destruct (deps_unchanged _ _ Hdeps') as [_ Hsame'].
    assert (Hi : interval (refreshSettings (cells (handle_event e w)))
                 = interval (refreshSettings (cells w))) by congruence.
    rewrite Hi.
    destruct Hcd as [-> | (h & t & -> & Hfind & Hcb & ->)]; [exact Hcount |].
    unfold timers_settled in Hset.
    destruct (refresh_wanted (effect_view w)).
    + destruct Hset as (c & r & Hts & _).
      assert (Hcap : captured t = effect_view w).
      { unfold find_timer in Hfind. apply find_some in Hfind as [Hin _].
        rewrite Hts in Hin. destruct Hin as [<- | [<- | []]]; reflexivity. }
      rewrite Hcap, Hsame.
      destruct (refreshCountdown (cells w) <=? 1) eqn:E.
      * lia.
      * apply Z.leb_gt in E. lia.
    + destruct Hset as (Hts & _). unfold find_timer in Hfind.
      rewrite Hts in Hfind. discriminate.
Qed.

Lemma countdown_run (es : list Event) :
  forall w, tidy w -> countdown_in_range w ->
            ~ In Unmount es -> intervals_positive es ->
            tidy (run w es) /\ countdown_in_range (run w es).
Proof.
  induction es as [| e es IH]; intros w Hw Hc Hes Hpos; [split; assumption |].
  cbn [run fold_left]. apply IH.
  - apply tidy_step; [exact Hw |]. intros ->. apply Hes. now left.
  - apply countdown_step; try assumption.
    + intros ->. apply Hes. now left.
    + intros n ->. apply Hpos. now left.
  - intros Hin. apply Hes. now right.
  - intros n Hin. apply Hpos. now right.
Qed.

(** X2.  The countdown next to the checkbox never leaves its range: it is 0
    while auto-refresh is not running and otherwise counts within
    1 .. interval, provided the intervals chosen are at least a second. *)
Theorem countdown_stays_in_range (notifier : bool) (from to : string)
    (es : list Event) :
  ~ In Unmount es ->
  intervals_positive es ->
  let w := run (mount notifier from to) es in
  if refresh_wanted (cells w)
  then 1 <= refreshCountdown (cells w) <= interval (refreshSettings (cells w))
  else refreshCountdown (cells w) = 0.
Proof.
  intros Hes Hpos. cbn zeta.
  assert (H0 : countdown_in_range (mount notifier from to)).
  { unfold countdown_in_range. destruct notifier; cbn; split; (lia || reflexivity). }
  destruct (countdown_run es _ (tidy_mount notifier from to) H0 Hes Hpos)
    as ((_ & _ & Hdeps & _) & (_ & Hc)).
  destruct (deps_unchanged _ _ Hdeps) as [Hwant _].
  rewrite <- Hwant. exact Hc.
Qed.

Lemma countdown_stays_in_range_witness :
  let es := [Click_reportType "attendance-summary"; Click_generate;
             Settle 0 (Resolved sample_report) noon; Change_autoRefresh;
             Change_interval 30; Fire 3%positive; Fire 3%positive] in
  let w := run (mount true "2026-02-07" "2026-03-09") es in
  ~ In Unmount es
  /\ intervals_positive es
  /\ if refresh_wanted (cells w)
     then 1 <= refreshCountdown (cells w) <= interval (refreshSettings (cells w))
     else refreshCountdown (cells w) = 0.
Proof.
  cbn zeta.
  assert (Hes : ~ In Unmount
                  [Click_reportType "attendance-summary"; Click_generate;
                   Settle 0 (Resolved sample_report) noon; Change_autoRefresh;
                   Change_interval 30; Fire 3%positive; Fire 3%positive])
    by (cbn; intuition discriminate).
  assert (Hpos : intervals_positive
                   [Click_reportType "attendance-summary"; Click_generate;
                    Settle 0 (Resolved sample_report) noon; Change_autoRefresh;
                    Change_interval 30; Fire 3%positive; Fire 3%positive]).
  { intros n Hin. cbn in Hin.
    repeat (destruct Hin as [Hin | Hin]; try discriminate Hin);
      [injection Hin as <-; lia | destruct Hin]. }
  split; [exact Hes |]. split; [exact Hpos |].
  apply (countdown_stays_in_range true "2026-02-07" "2026-03-09" _ Hes Hpos).
Defined.

(** ** [RealTimeUpdates]: intervals and the two maps *)

Lemma NoDup_map_eq {A B : Type} (f : A -> B) (l : list A) (x y : A) :
  NoDup (map f l) -> In x l -> In y l -> f x = f y -> x = y.
Proof.
  induction l as [| a l IH]; cbn; intros Hnd Hx Hy Hf; [destruct Hx |].
  inversion Hnd as [| ? ? Hnotin Hnd']; subst.
  destruct Hx as [-> | Hx], Hy as [-> | Hy].
  - reflexivity.
  - exfalso. apply Hnotin. rewrite Hf. now apply in_map.
  - exfalso. apply Hnotin. rewrite <- Hf. now apply in_map.
  - now apply IH.
Qed.

Lemma map_set_absent {V : Type} (key : string) (value : V) (m : JsMap V) :
  ~ In key (map fst m) -> map_set key value m = (m ++ [(key, value)])%list.
Proof.
  induction m as [| [k v] m IH]; cbn; intros H; [reflexivity |].
  destruct (String.eqb k key) eqn:E.
  - apply String.eqb_eq in E. exfalso. apply H. now left.
  - rewrite IH; [reflexivity |]. intros Hin. apply H. now right.
Qed.

Lemma map_delete_absent {V : Type} (key : string) (m : JsMap V) :
  ~ In key (map fst (map_delete key m)).
Proof.
  unfold map_delete. intros H. apply in_map_iff in H as ([k v] & Hk & Hin).
  apply filter_In in Hin as [_ Hne]. cbn in *. subst k.
  now rewrite String.eqb_refl in Hne.
Qed.

Lemma map_filter_comm {A B : Type} (f : A -> B) (p : B -> bool) (l : list A) :
  map f (filter (fun a => p (f a)) l) = filter p (map f l).
Proof.
  induction l as [| a l IH]; cbn; [reflexivity |].
  destruct (p (f a)); cbn; now rewrite IH.
Qed.

(** Entries kept by a filter still have distinct keys. *)
Lemma NoDup_map_filter {V K : Type} (key : V -> K) (keep : V -> bool)
    (entries : list V) :
  NoDup (map key entries) -> NoDup (map key (filter keep entries)).
Proof.
  induction entries as [| e entries IH]; cbn; intros H; [constructor |].
  inversion H as [| ? ? Hnotin Hnd]; subst.
  destruct (keep e); cbn; [| now apply IH].
  constructor; [| now apply IH].
  intros Hin. apply Hnotin. apply in_map_iff in Hin as (b & Hb & Hin).
  apply filter_In in Hin as [Hin _]. rewrite <- Hb. now apply in_map.
Qed.

(** In a consistent object, clearing the interval found under a key
    removes the registration of that key and no other. *)
Lemma stopPolling_registered (key : string) (u : RealTimeUpdates) :
  polling_consistent u ->
  registered (stopPolling key u)
  = filter (fun p => negb (String.eqb (poll_key p) key)) (registered u).
Proof.
  intros (Hi & Hc & Hk & Hh & Hf). unfold stopPolling, map_get.
  rewrite <- Hi.
  destruct (find (fun kv => String.eqb (fst kv) key)
                 (map (fun p => (poll_key p, poll_handle p)) (registered u)))
    as [[k id] |] eqn:Hfind; cbn [option_map snd registered].
  - apply find_some in Hfind as [Hin Hkey]. cbn in Hkey.
    apply String.eqb_eq in Hkey. subst k.
    apply in_map_iff in Hin as (p0 & Hp0 & Hin0). injection Hp0 as Hk0 Hh0.
    apply filter_ext_in. intros p Hin. f_equal.
    destruct (String.eqb (poll_key p) key) eqn:E.
    + apply String.eqb_eq in E.
      assert (p = p0) by (apply (NoDup_map_eq poll_key (registered u)); congruence).
      subst p. rewrite Hh0. apply Pos.eqb_refl.
    + apply Pos.eqb_neq. intros Heq. apply String.eqb_neq in E. apply E.
      assert (p = p0) by (apply (NoDup_map_eq poll_handle (registered u)); congruence).
      now subst p.
  - symmetry. apply forallb_filter_id.
    apply forallb_forall. intros p Hin. apply negb_true_iff.
    destruct (String.eqb (poll_key p) key) eqn:E; [| reflexivity].
    exfalso. eapply find_none in Hfind.
    2: { apply in_map_iff. exists p. split; [reflexivity | exact Hin]. }
    cbn in Hfind. congruence.
Qed.

Lemma NoDup_snoc {A : Type} (l : list A) (x : A) :
  NoDup l -> ~ In x l -> NoDup (l ++ [x]).
Proof.
  induction l as [| a l IH]; cbn; intros Hnd Hx.
  - constructor; [intros [] | constructor].
  - inversion Hnd as [| ? ? Ha Hl]; subst. constructor.
    + intros Hin. apply in_app_or in Hin as [Hin | [-> | []]];
        [now apply Ha | apply Hx; now left].
    + apply IH; [exact Hl |]. intros Hin. apply Hx. now right.
Qed.

Lemma stopPolling_consistent (key : string) (u : RealTimeUpdates) :
  polling_consistent u ->
  polling_consistent (stopPolling key u)
  /\ ~ In key (map poll_key (registered (stopPolling key u)))
  /\ fresh_handle (stopPolling key u) = fresh_handle u
  /\ called (stopPolling key u) = called u.
Proof.
  intros Hu. pose proof (stopPolling_registered key u Hu) as Hreg.
  destruct Hu as (Hi & Hc & Hk & Hh & Hf).
  assert (Hmaps : intervals (stopPolling key u) = map_delete key (intervals u)
                  /\ callbacks (stopPolling key u) = map_delete key (callbacks u)
                  /\ fresh_handle (stopPolling key u) = fresh_handle u
                  /\ called (stopPolling key u) = called u).
  { unfold stopPolling, map_get in *.
    destruct (find (fun kv => String.eqb (fst kv) key) (intervals u))
      as [[k id] |] eqn:Hfind; cbn; [repeat split |].
    assert (Hnone : forall p, In p (registered u) ->
                              String.eqb (poll_key p) key = false).
    { intros p Hin. destruct (String.eqb (poll_key p) key) eqn:E; [| reflexivity].
      exfalso. eapply find_none in Hfind.
      2: { rewrite <- Hi. apply in_map_iff. exists p. split; [reflexivity | exact Hin]. }
      cbn in Hfind. congruence. }
    repeat split; unfold map_delete; symmetry; apply forallb_filter_id;
      apply forallb_forall; intros [k v] Hin; cbn; apply negb_true_iff.
    - rewrite <- Hi in Hin. apply in_map_iff in Hin as (p & Hp & Hin).
      injection Hp as <- _. now apply Hnone.
    - rewrite <- Hc in Hin. apply in_map_iff in Hin as (p & Hp & Hin).
      injection Hp as <- _. now apply Hnone. }
  destruct Hmaps as (Hi' & Hc' & Hf' & Hcalled).
  split; [| split; [| split; assumption]].
  - unfold polling_consistent. rewrite Hreg, Hi', Hc', Hf', <- Hi, <- Hc.
    unfold map_delete. repeat split.
    + apply (map_filter_comm (fun p => (poll_key p, poll_handle p))
                             (fun kv => negb (String.eqb (fst kv) key))).
    + apply (map_filter_comm (fun p => (poll_key p, poll_callback p))
                             (fun kv => negb (String.eqb (fst kv) key))).
    + now apply NoDup_map_filter.
    + now apply NoDup_map_filter.
    + intros p Hin. apply filter_In in Hin as [Hin _]. now apply Hf.
  - rewrite Hreg. intros Hin. apply in_map_iff in Hin as (p & Hp & Hin).
    apply filter_In in Hin as [_ Hne]. rewrite Hp, String.eqb_refl in Hne.
    discriminate.
Qed.

Lemma startPolling_consistent (key : string) (cb : nat) (ms : Z)
    (u : RealTimeUpdates) :
  polling_consistent u ->
  polling_consistent (startPolling key cb ms u)
  /\ registered (startPolling key cb ms u)
     = (filter (fun p => negb (String.eqb (poll_key p) key)) (registered u)
        ++ [mkPolling (fresh_handle u) key cb ms])%list
  /\ called (startPolling key cb ms u) = (called u ++ [cb])%list.
Proof.
  intros Hu.
  pose proof (stopPolling_registered key u Hu) as Hreg.
  destruct (stopPolling_consistent key u Hu)
    as ((Hi & Hc & Hk & Hh & Hf) & Hnew & Hfresh & Hcalled).
  unfold startPolling.
  set (u1 := stopPolling key u) in *.
  cbn [registered called]. rewrite Hfresh, Hcalled, Hreg.
  split; [| split; reflexivity].
  unfold polling_consistent. cbn [intervals callbacks registered fresh_handle].
  rewrite <- Hreg.
  assert (Hki : ~ In key (map fst (intervals u1))).
  { rewrite <- Hi, map_map. exact Hnew. }
  assert (Hkc : ~ In key (map fst (callbacks u1))).
  { rewrite <- Hc, map_map. exact Hnew. }
  rewrite (map_set_absent _ _ _ Hki), (map_set_absent _ _ _ Hkc).
  rewrite !map_app, Hi, Hc. cbn [map poll_key poll_handle poll_callback].
  repeat split.
  - apply NoDup_snoc; assumption.
  - apply NoDup_snoc; [exact Hh |].
    intros Hin. apply in_map_iff in Hin as (p & Hp & Hin).
    apply Hf in Hin. lia.
  - intros p Hin. apply in_app_or in Hin as [Hin | [<- | []]].
    + apply Hf in Hin. lia.
    + cbn. lia.
Qed.

Lemma find_app_absent {A : Type} (f : A -> bool) (l l' : list A) :
  (forall x, In x l -> f x = false) -> find f (l ++ l') = find f l'.
Proof.
  induction l as [| a l IH]; cbn; intros H; [reflexivity |].
  rewrite (H a (or_introl eq_refl)). apply IH. intros x Hx. apply H. now right.
Qed.

Lemma clear_all_registered (m : JsMap TimerId) (ps : list Polling) :
  fold_left
    (fun ps kv => filter (fun p => negb (Pos.eqb (poll_handle p) (snd kv))) ps)
    m ps
  = filter (fun p => negb (existsb (fun kv => Pos.eqb (poll_handle p) (snd kv)) m))
           ps.
Proof.
  revert ps. induction m as [| kv m IH]; intros ps; cbn.
  - symmetry. apply forallb_filter_id. apply forallb_forall. reflexivity.
  - rewrite IH, filter_filter. apply filter_ext. intros p.
    now rewrite negb_orb.
Qed.

Lemma stopAllPolling_consistent (u : RealTimeUpdates) :
  polling_consistent u ->
  registered (stopAllPolling u) = [] /\ polling_consistent (stopAllPolling u).
Proof.
  intros (Hi & Hc & Hk & Hh & Hf).
  assert (Hreg : registered (stopAllPolling u) = []).
  { unfold stopAllPolling. cbn [registered]. rewrite clear_all_registered.
    apply filter_none. intros p Hin. apply negb_false_iff.
    apply existsb_exists. exists (poll_key p, poll_handle p). split.
    - rewrite <- Hi. apply in_map_iff. exists p. split; [reflexivity | exact Hin].
    - apply Pos.eqb_refl. }
  split; [exact Hreg |].
  unfold polling_consistent. rewrite Hreg. cbn.
  repeat split; try constructor. intros p [].
Qed.

Lemma poll_tick_consistent (h : TimerId) (u : RealTimeUpdates) :
  polling_consistent u -> polling_consistent (poll_tick h u).
Proof.
  unfold poll_tick.
  destruct (find (fun p => Pos.eqb (poll_handle p) h) (registered u));
    intros H; exact H.
Qed.

Lemma polling_run_consistent (ops : list PollingOp) :
  forall u, polling_consistent u ->
            polling_consistent (fold_left polling_step ops u).
Proof.
  induction ops as [| op ops IH]; intros u Hu; [exact Hu |].
  cbn [fold_left]. apply IH. destruct op; cbn.
  - apply startPolling_consistent, Hu.
  - apply stopPolling_consistent, Hu.
  - apply stopAllPolling_consistent, Hu.
  - apply poll_tick_consistent, Hu.
Qed.

Lemma polling_new_consistent : polling_consistent RealTimeUpdates_new.
Proof.
  unfold polling_consistent. cbn. repeat split; try constructor. intros p [].
Qed.

(** X3.  Whatever is started, stopped and ticked on a fresh [RealTimeUpdates],
    the intervals registered with the host are exactly the entries of its
    [intervals] map, one per key and under distinct handles, each calling
    the callback kept for its key: no interval is lost track of. *)
Theorem polling_never_leaks (ops : list PollingOp) :
  let u := fold_left polling_step ops RealTimeUpdates_new in
  map (fun p => (poll_key p, poll_handle p)) (registered u) = intervals u
  /\ map (fun p => (poll_key p, poll_callback p)) (registered u) = callbacks u
  /\ NoDup (map poll_key (registered u))
  /\ NoDup (map poll_handle (registered u)).
Proof.
  destruct (polling_run_consistent ops _ polling_new_consistent)
    as (Hi & Hc & Hk & Hh & _).
  repeat split; assumption.
Qed.

(** X4.  After any history, [stopAllPolling] leaves no interval registered and
    both maps empty. *)
Theorem stopAllPolling_clears (ops : list PollingOp) :
  let u := stopAllPolling (fold_left polling_step ops RealTimeUpdates_new) in
  registered u = [] /\ intervals u = [] /\ callbacks u = [].
Proof.
  cbn zeta.
  destruct (stopAllPolling_consistent _
              (polling_run_consistent ops _ polling_new_consistent))
    as [Hreg _].
  split; [exact Hreg | split; reflexivity].
Qed.

(** X5.  After any history, [startPolling(key, callback, interval)] leaves one
    interval for the key, the new one, keeps the intervals of the other
    keys, and has called the callback once at once. *)
Theorem startPolling_replaces (ops : list PollingOp) (key : string)
    (cb : nat) (ms : Z) :
  let u := fold_left polling_step ops RealTimeUpdates_new in
  let u' := startPolling key cb ms u in
  filter (fun p => String.eqb (poll_key p) key) (registered u')
  = [mkPolling (fresh_handle u) key cb ms]
  /\ filter (fun p => negb (String.eqb (poll_key p) key)) (registered u')
     = filter (fun p => negb (String.eqb (poll_key p) key)) (registered u)
  /\ map_get key (intervals u') = Some (fresh_handle u)
  /\ called u' = (called u ++ [cb])%list.
Proof.
  cbn zeta.
  set (u := fold_left polling_step ops RealTimeUpdates_new).
  assert (Hu : polling_consistent u)
    by apply (polling_run_consistent ops _ polling_new_consistent).
  destruct (startPolling_consistent key cb ms u Hu)
    as ((Hi & _) & Hreg & Hcalled).
  repeat split.
  - rewrite Hreg, filter_app, filter_filter. cbn.
    rewrite String.eqb_refl, filter_none; [reflexivity |].
    intros p _. destruct (String.eqb (poll_key p) key); reflexivity.
  - rewrite Hreg, filter_app, filter_filter. cbn.
    rewrite String.eqb_refl. cbn. rewrite app_nil_r.
    apply filter_ext. intros p. apply andb_diag.
  - rewrite <- Hi, Hreg. unfold map_get. rewrite map_app. cbn.
    rewrite find_app_absent; [cbn; now rewrite String.eqb_refl |].
    intros kv Hin. apply in_map_iff in Hin as (p & <- & Hin).
    apply filter_In in Hin as [_ Hne]. cbn. now apply negb_true_iff.
  - exact Hcalled.
Qed.

(** ** Notifications *)

Lemma filter_length_le {A : Type} (p : A -> bool) (l : list A) :
  (List.length (filter p l) <= List.length l)%nat.
Proof.
  induction l as [| a l IH]; cbn; [lia |]. destruct (p a); cbn; lia.
Qed.

(** X6.  However notifications are added, dismissed and expire, at most 5 are
    kept; one just added comes first, followed by the (up to) four that
    came first before. *)
Theorem notifications_capped (ops : list NotificationOp) :
  (List.length (fold_left notification_step ops []) <= 5)%nat
  /\ forall n,
       fold_left notification_step (ops ++ [AddNotification n]) []
       = n :: firstn 4 (fold_left notification_step ops []).
Proof.
  split.
  - assert (H : forall l, (List.length l <= 5)%nat ->
                          (List.length (fold_left notification_step ops l) <= 5)%nat).
    { induction ops as [| op ops IH]; intros l Hl; [exact Hl |].
      cbn [fold_left]. apply IH.
      destruct op; unfold notification_step, addNotification, removeNotification.
      - cbn [List.length]. rewrite length_firstn. lia.
      - pose proof (filter_length_le (fun n => negb (note_id n =? id)) l). lia. }
    apply H. cbn. lia.
  - intros n. rewrite fold_left_app. reflexivity.
Qed.

(** ** Today's attendance: badges and counters *)

(** X7.  The "Currently Checked In" and "Checked Out Today" counters
    count the rows that carry a checked-in and a checked-out badge; every
    row carries one kind of badge, so the rows with the "Not Checked In"
    badge are counted by neither, nor by the third counter, which counts
    employees that have no row at all. *)
Theorem counters_match_badges (todayAttendance : list TodayRow)
    (employees : list Employee) :
  let stats := today_stats todayAttendance employees in
  checkedIn stats = count_badges badge_checked_in todayAttendance
  /\ checkedOut stats = count_badges badge_checked_out todayAttendance
  /\ checkedIn stats + checkedOut stats
     + count_badges badge_not_checked_in todayAttendance
     = Z.of_nat (List.length todayAttendance)
  /\ forall emp r,
       In emp (not_yet_listed todayAttendance employees) ->
       In r todayAttendance ->
       today_employee_id r <> emp_employee_id emp.
Proof.
  cbn zeta. unfold today_stats, count_badges. cbn [checkedIn checkedOut].
  assert (Hin : forall r, badge_checked_in (getStatusBadge r) = is_checked_in r).
  { intros r. unfold getStatusBadge.
    destruct (is_checked_in r), (at_most_60 (time_until_auto_checkout r)),
      (time_truthy (today_check_out_time r)), (today_is_auto_checkout r);
      reflexivity. }
  assert (Hout : forall r, badge_checked_out (getStatusBadge r)
                           = time_truthy (today_check_out_time r)
                             && negb (is_checked_in r)).
  { intros r. unfold getStatusBadge.
    destruct (is_checked_in r), (at_most_60 (time_until_auto_checkout r)),
      (time_truthy (today_check_out_time r)), (today_is_auto_checkout r);
      reflexivity. }
  rewrite (filter_ext _ _ Hin), (filter_ext _ _ Hout).
  split; [reflexivity |]. split; [reflexivity |]. split.
  - induction todayAttendance as [| r rows IH]; [reflexivity |].
    cbn [filter List.length]. unfold getStatusBadge at 1.
    destruct (is_checked_in r), (at_most_60 (time_until_auto_checkout r)),
      (time_truthy (today_check_out_time r)), (today_is_auto_checkout r);
      cbn [andb negb badge_not_checked_in List.length]; lia.
  - intros emp r Hemp Hr Hid. unfold not_yet_listed in Hemp.
    apply filter_In in Hemp as [_ Hemp].
    apply andb_true_iff in Hemp as [_ Hemp]. apply negb_true_iff in Hemp.
    assert (Hex : existsb (fun att => String.eqb (today_employee_id att)
                                                 (emp_employee_id emp))
                          todayAttendance = true).
    { apply existsb_exists. exists r. split; [exact Hr |].
      rewrite Hid. apply String.eqb_refl. }
    congruence.
Qed.

(** ** Attendance statistics and the rate card *)

Lemma count_status_split (rows : list AttendanceRow) :
  count_status "Present" rows + count_status "Absent" rows
  + count_status "Late" rows
  = Z.of_nat (List.length (filter (fun r => counted_status (row_status r)) rows)).
Proof.
  unfold count_status, counted_status.
  induction rows as [| r rows IH]; [reflexivity |]. cbn [filter].
  destruct (String.eqb (row_status r) "Present") eqn:Ep.
  - apply String.eqb_eq in Ep. rewrite Ep. cbn [String.eqb Ascii.eqb Bool.eqb orb andb].
    cbn [List.length]. lia.
  - destruct (String.eqb (row_status r) "Absent") eqn:Ea.
    + apply String.eqb_eq in Ea. rewrite Ea. cbn. cbn in IH. lia.
    + destruct (String.eqb (row_status r) "Late") eqn:El; cbn; cbn in IH; lia.
Qed.

(** What [getAttendanceStats] counts. *)
Lemma getAttendanceStats_counts (today' : string)
    (attendance : list AttendanceRow) :
  let stats := getAttendanceStats today' attendance in
  let todayRecords := getTodayAttendance today' attendance in
  total stats = present stats + absent stats + late stats
  /\ total stats
     = Z.of_nat (List.length
                   (filter (fun r => counted_status (row_status r)) todayRecords))
  /\ 0 <= present stats + late stats <= total stats
  /\ total stats <= Z.of_nat (List.length todayRecords)
  /\ (total stats = Z.of_nat (List.length todayRecords)
      <-> forall r, In r todayRecords -> counted_status (row_status r) = true).
Proof.
  cbn zeta. unfold getAttendanceStats. cbn [total present absent late].
  set (rows := getTodayAttendance today' attendance).
  rewrite (count_status_split rows).
  pose proof (count_status_split rows) as Hsplit.
  assert (Hnn : forall s, 0 <= count_status s rows)
    by (intros s; unfold count_status; lia).
  pose proof (Hnn "Present"). pose proof (Hnn "Absent"). pose proof (Hnn "Late").
  pose proof (filter_length_le (fun r => counted_status (row_status r)) rows) as Hle.
  repeat split; try lia.
  - intros Heq r Hin.
    assert (Hall : forallb (fun r => counted_status (row_status r)) rows = true).
    { clear -Heq. induction rows as [| a l IH]; [reflexivity |].
      cbn in *. destruct (counted_status (row_status a)) eqn:E; cbn in *.
      - apply IH. lia.
      - pose proof (filter_length_le (fun r => counted_status (row_status r)) l).
        lia. }
    rewrite forallb_forall in Hall. now apply Hall.
  - intros Hall. f_equal. f_equal. apply forallb_filter_id. 
    apply forallb_forall. exact Hall.
Qed.

Lemma count_status_dated (day s : string) (attendance : list AttendanceRow) :
  count_status s (getTodayAttendance day attendance)
  = count_where (fun r => dated day r && String.eqb (row_status r) s)
                attendance.
Proof.
  unfold count_status, count_where, getTodayAttendance.
  now rewrite filter_filter.
Qed.

Lemma filter_app_none {A : Type} (keep : A -> bool) (rows others : list A) :
  (forall r, In r others -> keep r = false) ->
  filter keep (rows ++ others) = filter keep rows.
Proof.
  intros Hnone. rewrite filter_app, (filter_none keep others Hnone).
  apply app_nil_r.
Qed.

(** X8.  [getAttendanceStats] counts only the records dated today:
    [present], [absent] and [late] are the numbers of records of
    [attendance] dated today with that status, and records of another day
    change nothing.  Its [total] leaves out today's records whose status
    is none of Present, Absent and Late (Half Day, Work From Home, ...):
    it is the number of today's records exactly when there is no such
    record. *)
Theorem getAttendanceStats_total (today' : string)
    (attendance : list AttendanceRow) :
  let stats := getAttendanceStats today' attendance in
  let with_status s r := dated today' r && String.eqb (row_status r) s in
  present stats = count_where (with_status "Present") attendance
  /\ absent stats = count_where (with_status "Absent") attendance
  /\ late stats = count_where (with_status "Late") attendance
  /\ total stats = present stats + absent stats + late stats
  /\ total stats
     = count_where (fun r => dated today' r && counted_status (row_status r))
                   attendance
  /\ 0 <= present stats + late stats <= total stats
  /\ total stats <= count_where (dated today') attendance
  /\ (total stats = count_where (dated today') attendance
      <-> forall r, In r attendance -> row_date r = today' ->
                    counted_status (row_status r) = true)
  /\ forall others,
       (forall r, In r others -> row_date r <> today') ->
       getAttendanceStats today' (attendance ++ others) = stats.
Proof.
  cbn zeta.
  destruct (getAttendanceStats_counts today' attendance)
    as (Hsum & Htot & Hpl & Hle & Hall).
  cbn zeta in *.
  assert (Hrows : Z.of_nat (List.length (getTodayAttendance today' attendance))
                  = count_where (dated today') attendance) by reflexivity.
  rewrite Hrows in Hle, Hall.
  split; [apply count_status_dated |].
  split; [apply count_status_dated |].
  split; [apply count_status_dated |].
  split; [exact Hsum |].
  split.
  { rewrite Htot. unfold count_where, getTodayAttendance.
    now rewrite filter_filter. }
  split; [exact Hpl |]. split; [exact Hle |]. split.
  - rewrite Hall. unfold getTodayAttendance. split.
    + intros H r Hin Hdate. apply H. apply filter_In. split; [exact Hin |].
      now apply String.eqb_eq.
    + intros H r Hin. apply filter_In in Hin as [Hin Hdate].
      apply String.eqb_eq in Hdate. now apply H.
  - intros others Hothers. unfold getAttendanceStats, getTodayAttendance.
    rewrite filter_app_none; [reflexivity |].
    intros r Hin. apply String.eqb_neq. now apply Hothers.
Qed.

Lemma nonzero_total_checked (t : Z) :
  0 < t <= 366 -> PrimFloat.eqb (JS.num t) 0 = false.
Proof.
  intros Ht.
  assert (H : nonzero_total t = true).
  { apply (all_below_spec nonzero_total 367).
    - vm_compute. reflexivity.
    - change (Z.of_nat 367) with 367. lia. }
  unfold nonzero_total in H.
  replace (t =? 0) with false in H by (symmetry; apply Z.eqb_neq; lia).
  cbn [orb] in H. now apply negb_true_iff in H.
Qed.

(** The specified rate is a percentage, and at least 1 at a tie. *)
Lemma attendance_rate_spec_range (n t : Z) :
  0 <= n <= t -> 0 < t ->
  0 <= attendance_rate_spec n t <= 100
  /\ ((200 * n) mod (2 * t) = t -> 1 <= attendance_rate_spec n t).
Proof.
  intros Hn Ht. unfold attendance_rate_spec.
  replace (t =? 0) with false by (symmetry; apply Z.eqb_neq; lia).
  repeat split.
  - apply Z.div_pos; lia.
  - assert ((200 * n + t) / (2 * t) < 101)
      by (apply Z.div_lt_upper_bound; lia).
    lia.
  - intros Htie.
    pose proof (Z.mod_le (200 * n) (2 * t) ltac:(lia) ltac:(lia)) as Hle.
    apply Z.div_le_lower_bound; lia.
Qed.

(** X9.  With up to 366 counted records today, the "Attendance Rate" card
    is hidden when none is counted and otherwise shows a whole number
    between 0 and 100. *)
Theorem attendanceRateCard_percent (today' : string)
    (attendance : list AttendanceRow) :
  total (getAttendanceStats today' attendance) <= 366 ->
  let stats := getAttendanceStats today' attendance in
  (total stats = 0 /\ attendanceRateCard stats = None)
  \/ (0 < total stats
      /\ exists x k, attendanceRateCard stats = Some x
                     /\ 0 <= k <= 100
                     /\ PrimFloat.eqb x (JS.num k) = true).
Proof.
  intros Hbound. cbn zeta.
  destruct (getAttendanceStats_counts today' attendance)
    as (_ & Htot & Hpl & _).
  cbn zeta in *.
  set (stats := getAttendanceStats today' attendance) in *.
  unfold attendanceRateCard.
  destruct (0 <? total stats) eqn:Hpos.
  - right. apply Z.ltb_lt in Hpos. split; [exact Hpos |].
    pose proof (calculateAttendanceRate_close (present stats + late stats)
                  (total stats) Hpl Hbound) as Hclose.
    destruct (attendance_rate_spec_range (present stats + late stats)
                (total stats) Hpl Hpos) as (Hrange & Htie).
    unfold rate_close, calculateAttendanceRate in Hclose.
    rewrite (nonzero_total_checked (total stats)) in Hclose by lia.
    apply orb_true_iff in Hclose as [Hx | Hx].
    + eexists _, _. split; [reflexivity |]. split; [exact Hrange | exact Hx].
    + apply andb_true_iff in Hx as [Hhalf Hx]. apply Z.eqb_eq in Hhalf.
      specialize (Htie Hhalf).
      eexists _, _. split; [reflexivity |]. split; [| exact Hx]. lia.
  - left. apply Z.ltb_ge in Hpos. split; [lia | reflexivity].
Qed.

Lemma attendanceRateCard_percent_witness :
  total (getAttendanceStats today forty_rows) <= 366
  /\ exists x k, attendanceRateCard (getAttendanceStats today forty_rows) = Some x
                 /\ 0 <= k <= 100
                 /\ PrimFloat.eqb x (JS.num k) = true.
Proof.
  assert (H : total (getAttendanceStats today forty_rows) <= 366)
    by (vm_compute; discriminate).
  split; [exact H |].
  destruct (attendanceRateCard_percent today forty_rows H)
    as [[H0 _] | [_ Hx]]; [vm_compute in H0; discriminate H0 | exact Hx].
Defined.

(** ** [formatWorkingHours] *)

Lemma eqb_string_eq (s t : string) : String.eqb s t = true -> s = t.
Proof. apply String.eqb_eq. Qed.

(** X10.  For hours given in hundredths up to 24 hours the label shows the
    whole hours and the rest rounded to the nearest minute, never 60 of
    them; for hours that are a whole number of minutes it shows exactly
    these hours and minutes; an absent or zero argument gives ["0h 0m"]. *)
Theorem formatWorkingHours_labels (k m : Z) :
  0 <= k <= 2400 ->
  0 <= m <= 1440 ->
  formatWorkingHours (Hours (PrimFloat.div (JS.num k) 100))
  = Some (JS.toString (k / 100) ++ "h "
          ++ JS.toString ((60 * (k mod 100) + 50) / 100) ++ "m")
  /\ (60 * (k mod 100) + 50) / 100 < 60
  /\ formatWorkingHours (Hours (PrimFloat.div (JS.num m) 60))
     = Some (JS.toString (m / 60) ++ "h " ++ JS.toString (m mod 60) ++ "m")
  /\ formatWorkingHours NoHours = Some "0h 0m"
  /\ formatWorkingHours (Hours 0) = Some "0h 0m".
Proof.
  intros Hk Hm.
  assert (H : hundredths_ok k = true).
  { apply (all_below_spec hundredths_ok (Z.to_nat 2401)).
    - vm_compute. reflexivity.
    - rewrite Z2Nat.id; lia. }
  assert (H' : sixtieths_ok m = true).
  { apply (all_below_spec sixtieths_ok (Z.to_nat 1441)).
    - vm_compute. reflexivity.
    - rewrite Z2Nat.id; lia. }
  unfold hundredths_ok in H. apply andb_true_iff in H as [Hlt H].
  apply Z.ltb_lt in Hlt. unfold sixtieths_ok in H'.
  destruct (formatWorkingHours (Hours (PrimFloat.div (JS.num k) 100)));
    [| discriminate].
  destruct (formatWorkingHours (Hours (PrimFloat.div (JS.num m) 60)));
    [| discriminate].
  apply eqb_string_eq in H. apply eqb_string_eq in H'. subst.
  repeat split; assumption.
Qed.

Lemma formatWorkingHours_labels_witness :
  0 <= 833 <= 2400
  /\ 0 <= 570 <= 1440
  /\ formatWorkingHours (Hours (PrimFloat.div (JS.num 833) 100)) = Some "8h 20m"
  /\ formatWorkingHours (Hours (PrimFloat.div (JS.num 570) 60)) = Some "9h 30m".
Proof.
  assert (Hk : 0 <= 833 <= 2400) by lia.
  assert (Hm : 0 <= 570 <= 1440) by lia.
  split; [exact Hk |]. split; [exact Hm |].
  destruct (formatWorkingHours_labels 833 570 Hk Hm) as (H1 & _ & H2 & _).
  split; [exact H1 | exact H2].
Defined.

(** Finer fractions can round up to a full hour of minutes, and a
    negative value is floored away from zero. *)
Lemma formatWorkingHours_quirks :
  formatWorkingHours (Hours (PrimFloat.div (JS.num 1999) 1000)) = Some "1h 60m"
  /\ formatWorkingHours (Hours (PrimFloat.div (JS.num (-1)) 2)) = Some "-1h 30m".
Proof. vm_compute. split; reflexivity. Qed.

(** ** [formatDisplayTime] *)

Lemma split_app (sep : ascii) (a b : string) :
  lacks sep a = true -> split sep (a ++ String sep b) = a :: split sep b.
Proof.
  induction a as [| c a IH]; cbn; intros H.
  - now rewrite Ascii.eqb_refl.
  - apply andb_true_iff in H as [Hc Ha]. apply negb_true_iff in Hc.
    rewrite Hc, (IH Ha). reflexivity.
Qed.

Lemma split_first (sep : ascii) (b : string) :
  nth_error (split sep b) 0 = Some (JS.split_head sep b).
Proof.
  induction b as [| c b IH]; cbn; [reflexivity |].
  destruct (Ascii.eqb c sep); [reflexivity |].
  destruct (split sep b) as [| first others]; cbn in *; [discriminate |].
  injection IH as <-. reflexivity.
Qed.

(** A time that starts with two digits and a colon. *)
Lemma formatDisplayTime_split (hh rest : string) :
  lacks ":" hh = true -> JS.truthy hh = true ->
  formatDisplayTime (Time (hh ++ String ":" rest))
  = display_time (parseInt hh) (Some (JS.split_head ":" rest)).
Proof.
  intros Hl Ht. unfold formatDisplayTime.
  assert (Htr : JS.truthy (hh ++ String ":" rest) = true)
    by (destruct hh; [discriminate | reflexivity]).
  rewrite Htr. cbn [negb]. rewrite (split_app _ _ _ Hl).
  cbn [nth].
  change (nth_error (hh :: split ":" rest) 1)
    with (nth_error (split ":" rest) 0).
  now rewrite split_first.
Qed.

(** X11.  The hour of a 24-hour time [HH:MM] or [HH:MM:SS] is shown on the
    12-hour clock, 1 to 12, with AM before noon and PM from noon on; the
    minutes are passed through and the seconds dropped.  An absent or
    empty time gives the empty string. *)
Theorem formatDisplayTime_12_hour (h : Z) (rest : string) :
  0 <= h <= 23 ->
  formatDisplayTime (Time (JS.pad 2 h ++ ":" ++ rest))
  = Some (JS.toString (if h mod 12 =? 0 then 12 else h mod 12)
          ++ ":" ++ JS.split_head ":" rest
          ++ (if h <? 12 then " AM" else " PM"))
  /\ 1 <= (if h mod 12 =? 0 then 12 else h mod 12) <= 12
  /\ formatDisplayTime NoTime = Some ""
  /\ formatDisplayTime (Time "") = Some "".
Proof.
  intros Hh.
  split; [| split; [| split; reflexivity]].
  - assert (Hcases : h = 0 \/ h = 1 \/ h = 2 \/ h = 3 \/ h = 4 \/ h = 5
                     \/ h = 6 \/ h = 7 \/ h = 8 \/ h = 9 \/ h = 10 \/ h = 11
                     \/ h = 12 \/ h = 13 \/ h = 14 \/ h = 15 \/ h = 16
                     \/ h = 17 \/ h = 18 \/ h = 19 \/ h = 20 \/ h = 21
                     \/ h = 22 \/ h = 23) by lia.
    change (JS.pad 2 h ++ ":" ++ rest) with (JS.pad 2 h ++ String ":" rest).
    repeat (destruct Hcases as [-> | Hcases]); try subst h;
      (rewrite formatDisplayTime_split by reflexivity);
      vm_compute; reflexivity.
  - destruct (h mod 12 =? 0) eqn:E; [lia |].
    apply Z.eqb_neq in E. pose proof (Z.mod_pos_bound h 12 ltac:(lia)). lia.
Qed.

Lemma formatDisplayTime_12_hour_witness :
  0 <= 17 <= 23
  /\ formatDisplayTime (Time "17:30:00") = Some "5:30 PM".
Proof.
  split; [lia |].
  exact (proj1 (formatDisplayTime_12_hour 17 "30:00" ltac:(lia))).
Defined.

(** Without a colon the minutes are [undefined]; an hour that is no
    number is shown as 12 AM. *)
Lemma formatDisplayTime_malformed :
  formatDisplayTime (Time "9") = Some "9:undefined AM"
  /\ formatDisplayTime (Time "ab:cd") = Some "12:cd AM".
Proof. vm_compute. split; reflexivity. Qed.

(** ** Department options *)

Lemma existsb_eqb_In (x : string) (l : list string) :
  existsb (String.eqb x) l = true <-> In x l.
Proof.
  rewrite existsb_exists. split.
  - intros (y & Hy & E). apply String.eqb_eq in E. now subst.
  - intros H. exists x. split; [exact H | apply String.eqb_refl].
Qed.

Lemma Set_values_spec (values : list string) :
  forall seen,
    NoDup seen ->
    NoDup (Set_values seen values)
    /\ (forall d, In d (Set_values seen values) <-> In d seen \/ In d values)
    /\ exists added, Set_values seen values = (seen ++ added)%list.
Proof.
  induction values as [| x rest IH]; intros seen Hnd; cbn.
  - repeat split; try assumption; try tauto. exists []. now rewrite app_nil_r.
  - destruct (existsb (String.eqb x) seen) eqn:E.
    + apply existsb_eqb_In in E.
      destruct (IH seen Hnd) as (H1 & H2 & H3). repeat split; try assumption.
      * intros H. apply H2 in H. tauto.
      * intros [H | [<- | H]]; apply H2; tauto.
    + assert (Hx : ~ In x seen).
      { intros H. apply existsb_eqb_In in H. congruence. }
      destruct (IH (seen ++ [x])%list (NoDup_snoc seen x Hnd Hx))
        as (H1 & H2 & (added & H3)).
      repeat split; try assumption.
      * intros H. apply H2 in H. rewrite in_app_iff in H. cbn in H. tauto.
      * intros H. apply H2. rewrite in_app_iff. cbn. tauto.
      * exists (x :: added). rewrite H3, <- app_assoc. reflexivity.
Qed.

Lemma Set_values_app (values more : list string) :
  forall seen,
    Set_values seen (values ++ more) = Set_values (Set_values seen values) more.
Proof.
  induction values as [| x rest IH]; intros seen; cbn; [reflexivity |].
  destruct (existsb (String.eqb x) seen); apply IH.
Qed.

(** X12.  The department select of the Reports view offers every department
    some employee belongs to, each once, in the order of first
    appearance: one more employee adds a department at the end exactly
    when it is new. *)
Theorem uniqueDepts_spec (data : list Employee) :
  NoDup (uniqueDepts data)
  /\ (forall d, In d (uniqueDepts data)
                <-> exists emp, In emp data /\ emp_department emp = d)
  /\ forall emp,
       uniqueDepts (data ++ [emp])
       = if existsb (String.eqb (emp_department emp)) (uniqueDepts data)
         then uniqueDepts data
         else (uniqueDepts data ++ [emp_department emp])%list.
Proof.
  unfold uniqueDepts.
  destruct (Set_values_spec (map emp_department data) [] (NoDup_nil _))
    as (Hnd & Hin & _).
  repeat split.
  - exact Hnd.
  - intros H. apply Hin in H as [[] | H].
    apply in_map_iff in H as (emp & <- & H). now exists emp.
  - intros (emp & H & <-). apply Hin. right. now apply in_map.
  - intros emp. rewrite map_app, Set_values_app. cbn.
    destruct (existsb _ _); reflexivity.
Qed.

(** ** Employee ids *)

Lemma all_chars_lacks (p : ascii -> bool) (sep : ascii) (s : string) :
  p sep = false -> all_chars p s = true -> lacks sep s = true.
Proof.
  intros Hsep. induction s as [| c s IH]; cbn; [reflexivity |].
  intros H. apply andb_true_iff in H as [Hc Hs]. rewrite (IH Hs), andb_true_r.
  apply negb_true_iff. destruct (Ascii.eqb c sep) eqn:E; [| reflexivity].
  apply Ascii.eqb_eq in E. congruence.
Qed.

Lemma split_lacks (sep : ascii) (s : string) :
  lacks sep s = true -> split sep s = [s].
Proof.
  induction s as [| c s IH]; cbn; [reflexivity |].
  intros H. apply andb_true_iff in H as [Hc Hs]. apply negb_true_iff in Hc.
  now rewrite Hc, (IH Hs).
Qed.

(** X13.  An id accepted by [validateEmployeeId] has 1 to 20 characters, none
    of which is a path, query or fragment delimiter, a percent sign or a
    space; put into the employee path as it is, it is the last of three
    segments. *)
Theorem validateEmployeeId_path (employeeId : string) :
  validateEmployeeId employeeId = true ->
  (1 <= String.length employeeId <= 20)%nat
  /\ lacks "/" employeeId = true /\ lacks "?" employeeId = true
  /\ lacks "#" employeeId = true /\ lacks "%" employeeId = true
  /\ lacks " " employeeId = true
  /\ split "/" (employee_path employeeId) = [""; "api"; "employees"; employeeId].
Proof.
  unfold validateEmployeeId. intros H.
  apply andb_true_iff in H as [H Hlen]. apply andb_true_iff in H as [Hne Hall].
  apply Nat.leb_le in Hlen.
  assert (Hslash : lacks "/" employeeId = true)
    by (apply (all_chars_lacks id_char); [reflexivity | exact Hall]).
  repeat split; try (apply (all_chars_lacks id_char); [reflexivity | exact Hall]).
  - destruct employeeId; [discriminate | cbn; lia].
  - exact Hlen.
  - unfold employee_path.
    change ("/api/employees/" ++ employeeId)
      with ("" ++ String "/" ("api" ++ String "/" ("employees" ++ String "/" employeeId))).
    rewrite !split_app by reflexivity. now rewrite split_lacks.
Qed.

Lemma validateEmployeeId_path_witness :
  validateEmployeeId "EMP-001" = true
  /\ split "/" (employee_path "EMP-001") = [""; "api"; "employees"; "EMP-001"].
Proof.
  split; [reflexivity |].
  apply (validateEmployeeId_path "EMP-001"). reflexivity.
Defined.
